(** * Synalinks Memory CLI: a shallow embedding of [synalinks_memory_cli/main.py]

    The command line tool forwards each command to a remote memory service
    through an SDK client and renders what comes back.  This development
    embeds the module function by function:

    - Python [str] values are lists of code points, so that [len], slicing
      and concatenation are the list operations;
    - a result row is a Python [dict], embedded as a [gmap] from column
      names to cell values;
    - the effects of a command (constructing the client, the remote call,
      [close], printing, [sys.exit]) are threaded by a small monad that
      records a trace of events and carries Python's exceptions, with
      [try]/[except]/[finally] as combinators;
    - what lies outside the module is a parameter [World]: the remote
      service, which decides what every remote call returns or raises,
      and rich's consoles, which print what they are given or raise. *)

From Stdlib Require Import ZArith List Ascii String Lia DecimalString.
From stdpp Require Import base option list countable gmap.

Local Open Scope Z_scope.

(** ** Python strings *)

Module Py.

(** A character is a Unicode code point, an [N]; a [str] is the list of
    its characters, a [list N]. *)

(** A string literal of the source. *)
Definition lit (s : string) : list N :=
  List.map N_of_ascii (list_ascii_of_string s).

(** The double quote character, U+0022. *)
Definition dquote : list N := [34%N].

(** [len(s)] *)
Definition len (s : list N) : Z := Z.of_nat (length s).

(** Truthiness of a string: [bool(s)] is [len(s) != 0]. *)
Definition truthy (s : list N) : bool :=
  match s with [] => false | _ :: _ => true end.

(** Truthiness of an optional string, [None] or a [str]. *)
Definition truthy_opt (o : option (list N)) : bool :=
  match o with None => false | Some s => truthy s end.

(** [s == t] on strings. *)
Definition eqb (s t : list N) : bool := bool_decide (s = t).

(** [sep.join(parts)] *)
Fixpoint join (sep : list N) (parts : list (list N)) : list N :=
  match parts with
  | [] => []
  | [p] => p
  | p :: rest => p ++ sep ++ join sep rest
  end.

(** [str(n)] for an [int]: decimal digits, with a minus sign below zero. *)
Definition str_of_int (z : Z) : list N :=
  lit (NilZero.string_of_int (Z.to_int z)).

End Py.

(** ** Cell values and their rendering *)

(** The values a row maps its columns to.  [VOther] stands for a value of
    any other type (a float, a list, a nested object) and carries the text
    that the builtin [str] returns for it. *)
Inductive value : Type :=
| VNone
| VBool (b : bool)
| VInt (z : Z)
| VStr (s : list N)
| VOther (shown : list N).

(** The builtin [str(value)]. *)
Definition py_str (v : value) : list N :=
  match v with
  | VNone => Py.lit "None"
  | VBool true => Py.lit "True"
  | VBool false => Py.lit "False"
  | VInt z => Py.str_of_int z
  | VStr s => s
  | VOther shown => shown
  end.

(** A [rich.text.Text]: its plain text and its style; the style is empty
    when the constructor is given none. *)
Record Text : Type := mkText { plain : list N; style : list N }.

(** The characters the constructor of [Text] removes from its text: bell,
    backspace, vertical tab, form feed and carriage return. *)
Definition is_control_code (c : N) : bool :=
  ((c =? 7) || (c =? 8) || (c =? 11) || (c =? 12) || (c =? 13))%N.

Definition strip_control_codes (s : list N) : list N :=
  List.filter (fun c => negb (is_control_code c)) s.

(** [Text(text, style=style)]: the constructor keeps the text without its
    control codes. *)
Definition rich_Text (text style : list N) : Text :=
  mkText (strip_control_codes text) style.

(** [_format_cell(value)]
<<
    if value is None:
        return Text("null", style="dim italic")
    s = str(value)
    if len(s) > 80:
        s = s[:77] + "..."
    return Text(s)
>> *)
Definition _format_cell (v : value) : Text :=
  match v with
  | VNone => rich_Text (Py.lit "null") (Py.lit "dim italic")
  | _ =>
      let s := py_str v in
      let s := if 80 <? Py.len s then take 77 s ++ Py.lit "..." else s in
      rich_Text s []
  end.

(** A row is a [dict] from column names to values; [row.get(name)] is
    [None] when the key is missing. *)
Definition row_get (row : gmap (list N) value) (name : list N) : value :=
  default VNone (row !! name).

Record Column : Type := mkColumn { col_name : list N }.

(** [[_format_cell(row.get(col.name)) for col in columns]] *)
Definition format_row (columns : list Column) (row : gmap (list N) value)
  : list Text :=
  List.map (fun col => _format_cell (row_get row (col_name col))) columns.

(** ** What the SDK returns *)

Record Predicate : Type :=
  mkPredicate { pred_name : list N; pred_description : list N }.

(** The value of [client.list()]. *)
Record PredicateList : Type :=
  mkPredicateList {
    tables : list Predicate;
    concepts : list Predicate;
    rules : list Predicate }.

(** The value of [client.execute(...)] and [client.search(...)]. *)
Record Result : Type :=
  mkResult {
    columns : list Column;
    rows : list (gmap (list N) value);
    row_count : Z;
    total_rows : Z;
    offset : Z }.

(** The value of [client.upload(...)]. *)
Record UploadResult : Type :=
  mkUploadResult {
    up_predicate : list N;
    up_columns : list Column;
    up_row_count : Z }.

(** [click.Choice(["json", "csv", "parquet"])] *)
Inductive format : Type := json | csv | parquet.

Definition format_str (f : format) : list N :=
  match f with
  | json => Py.lit "json"
  | csv => Py.lit "csv"
  | parquet => Py.lit "parquet"
  end.

(** Truthiness of [fmt]: [None], or one of the three non-empty choices. *)
Definition format_truthy (fmt : option format) : bool :=
  match fmt with None => false | Some _ => true end.

(** ** What the console is given to print *)

Inductive cell : Type :=
| CellStr (s : list N)
| CellText (t : Text).

(** [table.add_column(header, style=..., no_wrap=..., justify=...)] *)
Record TableColumn : Type :=
  mkTableColumn {
    header : list N;
    tc_style : list N;
    tc_no_wrap : bool;
    tc_justify_right : bool }.

(** [Table.add_column(header)] with the defaults. *)
Definition plain_column (h : list N) : TableColumn := mkTableColumn h [] false false.

(** [rich.table.Table(title=..., caption=...)] after its [add_column] and
    [add_row] calls. *)
Record Table : Type :=
  mkTable {
    title : list N;
    caption : option (list N);
    table_columns : list TableColumn;
    table_rows : list (list cell) }.

Inductive renderable : Type :=
| Markup (s : list N)
    (* a [str]; the console reads its bracketed tags as markup *)
| SavedNotice (output : list N) (nbytes : Z)
    (* [f"[green]Saved[/green] {output} ({size_kb:.1f} KB)"], where
       [size_kb = nbytes / 1024] is formatted to one decimal *)
| RTable (t : Table)
| Markdown (s : list N).

(** ** Events, exceptions and the remote world *)

Inductive remote_call : Type :=
| CallList
| CallExecute (predicate : list N) (limit offset : Z)
    (* [client.execute(predicate, limit=..., offset=...)] *)
| CallExport (predicate : list N) (fmt : format) (limit offset : Z)
    (output : list N)
    (* [client.execute(predicate, format=..., limit=..., offset=...,
       output=...)] *)
| CallSearch (predicate keywords : list N) (limit offset : Z)
| CallUpload (file : list N) (name description : option (list N))
    (overwrite : bool)
| CallAsk (question : list N).

Inductive event : Type :=
| EvNew (kwargs : gmap (list N) (list N))
    (* the constructor [SynalinksMemory], given [kwargs], returned a client *)
| EvCall (c : remote_call)
    (* a method of the client is called *)
| EvClose
    (* [client.close()] *)
| EvPrint (r : renderable)
    (* [console.print(r)] returned; [r] is what the console was given *)
| EvErr (msg : list N).
    (* [err_console.print(msg)] returned *)

Inductive exn : Type :=
| SystemExit (code : Z)
| SynalinksError (message : list N)
| OtherError (name : list N).

Inductive res (A : Type) : Type :=
| Ok (a : A)
| Exc (e : exn).
Arguments Ok {A} a.
Arguments Exc {A} e.

(** The two messages of the module that are literals: the usage error of
    [execute] and the notice of [list] for an empty listing. *)
Definition usage_text : list N :=
  Py.lit "[red]Error:[/red] --output requires --format (-f).".

Definition none_found_text : list N := Py.lit "[dim]No predicates found.[/dim]".

(** What lies outside the module.  The remote service and the SDK in
    front of it: what the constructor and each method of the client return
    or raise.  And rich's two consoles: a [print] renders its argument as
    console markup (a [str], and the title, the headers and the [str]
    cells of a table) and either returns, [None], or raises an exception,
    whose name is given; rich raises [MarkupError] for a closing tag that
    matches no open tag.  The two literal messages are balanced markup,
    which rich prints. *)
Record World : Type :=
  mkWorld {
    w_construct : gmap (list N) (list N) -> res unit;
    w_list : res PredicateList;
    w_execute : list N -> Z -> Z -> res Result;
    w_export : list N -> format -> Z -> Z -> list N -> res (list N);
    w_search : list N -> list N -> Z -> Z -> res Result;
    w_upload : list N -> option (list N) -> option (list N) -> bool
               -> res UploadResult;
    w_ask : list N -> res (list N);
    w_print : renderable -> option (list N);
    w_err_print : list N -> option (list N);
    w_literals :
      w_err_print usage_text = None /\ w_print (Markup none_found_text) = None }.

(** ** The effect monad: a trace of events and a result or an exception *)

Definition M (A : Type) : Type := World -> list event * res A.

Definition ret {A} (a : A) : M A := fun _ => ([], Ok a).

Definition bind {A B} (m : M A) (f : A -> M B) : M B :=
  fun w =>
    match m w with
    | (t, Ok a) => let '(t', r) := f a w in (t ++ t', r)
    | (t, Exc e) => (t, Exc e)
    end.

#[global] Instance M_ret : MRet M := @ret.
#[global] Instance M_bind : MBind M := fun A B f m => bind m f.

Definition raise {A} (e : exn) : M A := fun _ => ([], Exc e).

Definition emit (ev : event) : M unit := fun _ => ([ev], Ok tt).

(** The answer of the world to a call. *)
Definition answer {A} (f : World -> res A) : M A := fun w => ([], f w).

(** [try: body  except SynalinksError as exc: handler(exc.message)] *)
Definition try_except {A} (body : M A) (handler : list N -> M A) : M A :=
  fun w =>
    match body w with
    | (t, Exc (SynalinksError msg)) =>
        let '(t', r) := handler msg w in (t ++ t', r)
    | out => out
    end.

(** [try: body  finally: fin]: [fin] runs on every path; the result or
    the pending exception of [body] stands unless [fin] raises itself. *)
Definition try_finally {A} (body : M A) (fin : M unit) : M A :=
  fun w =>
    let '(t, r) := body w in
    match fin w with
    | (t', Ok _) => (t ++ t', r)
    | (t', Exc e) => (t ++ t', Exc e)
    end.

(** [sys.exit(code)] *)
Definition sys_exit {A} (code : Z) : M A := raise (SystemExit code).

(** [console.print(r)]: the event records a print that returned; a print
    that raises leaves nothing on the console. *)
Definition console_print (r : renderable) : M unit :=
  fun w =>
    match w_print w r with
    | None => ([EvPrint r], Ok tt)
    | Some name => ([], Exc (OtherError name))
    end.

(** [err_console.print(msg)] *)
Definition err_console_print (msg : list N) : M unit :=
  fun w =>
    match w_err_print w msg with
    | None => ([EvErr msg], Ok tt)
    | Some name => ([], Exc (OtherError name))
    end.

(** The status the process exits with: 0 after a normal return, the code
    of a [SystemExit], 1 after any other uncaught exception. *)
Definition exit_status {A} (r : res A) : Z :=
  match r with
  | Ok _ => 0
  | Exc (SystemExit code) => code
  | Exc _ => 1
  end.

(** ** The client *)

(** [ctx.obj], filled by the group callback [cli] from the global options
    [--api-key] (or the environment variable) and [--base-url]. *)
Record Ctx : Type :=
  mkCtx { api_key : option (list N); base_url : option (list N) }.

Record Client : Type := mkClient { client_kwargs : gmap (list N) (list N) }.

(** The keyword arguments [_get_client] builds: an option is passed on
    only when it is truthy. *)
Definition build_kwargs (api_key base_url : option (list N))
  : gmap (list N) (list N) :=
  let kwargs : gmap (list N) (list N) := ∅ in
  let kwargs :=
    match api_key with
    | Some k => if Py.truthy k then <[Py.lit "api_key" := k]> kwargs else kwargs
    | None => kwargs
    end in
  match base_url with
  | Some u => if Py.truthy u then <[Py.lit "base_url" := u]> kwargs else kwargs
  | None => kwargs
  end.

(** The constructor of the SDK client. *)
Definition SynalinksMemory (kwargs : gmap (list N) (list N)) : M Client :=
  answer (fun w => w_construct w kwargs);;
  emit (EvNew kwargs);;
  mret (mkClient kwargs).

(** [f"[red]Error:[/red] {exc.message}"] *)
Definition error_text (message : list N) : list N :=
  Py.lit "[red]Error:[/red] " ++ message.

(** The handler every command uses:
<<
    except SynalinksError as exc:
        err_console.print(f"[red]Error:[/red] {exc.message}")
        sys.exit(1)
>> *)
Definition report_and_exit {A} (message : list N) : M A :=
  err_console_print (error_text message);;
  sys_exit 1.

(** [_get_client(api_key, base_url)] *)
Definition _get_client (api_key base_url : option (list N)) : M Client :=
  try_except (SynalinksMemory (build_kwargs api_key base_url)) report_and_exit.

Definition client_list (_ : Client) : M PredicateList :=
  emit (EvCall CallList);;
  answer w_list.

(** [client.execute(predicate, limit=limit, offset=offset)] *)
Definition client_execute (_ : Client) (predicate : list N) (limit offset : Z)
  : M Result :=
  emit (EvCall (CallExecute predicate limit offset));;
  answer (fun w => w_execute w predicate limit offset).

(** [client.execute(predicate, format=fmt, limit=limit, offset=offset,
    output=output)] *)
Definition client_export (_ : Client) (predicate : list N) (fmt : format)
    (limit offset : Z) (output : list N) : M (list N) :=
  emit (EvCall (CallExport predicate fmt limit offset output));;
  answer (fun w => w_export w predicate fmt limit offset output).

Definition client_search (_ : Client) (predicate keywords : list N)
    (limit offset : Z) : M Result :=
  emit (EvCall (CallSearch predicate keywords limit offset));;
  answer (fun w => w_search w predicate keywords limit offset).

Definition client_upload (_ : Client) (file : list N)
    (name description : option (list N)) (overwrite : bool) : M UploadResult :=
  emit (EvCall (CallUpload file name description overwrite));;
  answer (fun w => w_upload w file name description overwrite).

Definition client_ask (_ : Client) (question : list N) : M (list N) :=
  emit (EvCall (CallAsk question));;
  answer (fun w => w_ask w question).

Definition client_close (_ : Client) : M unit := emit EvClose.

(** The shape of every remote call in the module:
<<
    try:
        x = client.method(...)
    except SynalinksError as exc:
        err_console.print(f"[red]Error:[/red] {exc.message}")
        sys.exit(1)
    finally:
        client.close()
>> *)
Definition guarded {A} (client : Client) (call : M A) : M A :=
  try_finally (try_except call report_and_exit) (client_close client).

(** ** The commands *)

Definition predicate_row (kind : string) (p : Predicate) : list cell :=
  [CellStr (Py.lit kind); CellStr (pred_name p); CellStr (pred_description p)].

(** [list_predicates(ctx)] *)
Definition list_predicates (ctx : Ctx) : M unit :=
  client ← _get_client (api_key ctx) (base_url ctx);
  preds ← guarded client (client_list client);
  let table :=
    mkTable (Py.lit "Predicates") None
      [ mkTableColumn (Py.lit "Type") (Py.lit "bold cyan") true false;
        mkTableColumn (Py.lit "Name") (Py.lit "bold") false false;
        mkTableColumn (Py.lit "Description") [] false false ]
      (List.map (predicate_row "table") (tables preds)
       ++ List.map (predicate_row "concept") (concepts preds)
       ++ List.map (predicate_row "rule") (rules preds)) in
  match table_rows table with
  | [] => console_print (Markup (Py.lit "[dim]No predicates found.[/dim]"))
  | _ :: _ => console_print (RTable table)
  end.

(** The table both [execute] and [search] print. *)
Definition result_table (title : list N) (caption : list N) (result : Result)
  : Table :=
  mkTable title (Some caption)
    (List.map (fun col => plain_column (col_name col)) (columns result))
    (List.map (fun row => List.map CellText (format_row (columns result) row))
       (rows result)).

(** [f"[dim]No rows in {predicate}.[/dim]"] *)
Definition no_rows_text (predicate : list N) : list N :=
  Py.lit "[dim]No rows in " ++ predicate ++ Py.lit ".[/dim]".

(** [f"Showing {result.row_count} of {result.total_rows} rows (offset
    {result.offset})"] *)
Definition execute_caption (result : Result) : list N :=
  Py.lit "Showing " ++ Py.str_of_int (row_count result) ++ Py.lit " of "
  ++ Py.str_of_int (total_rows result) ++ Py.lit " rows (offset "
  ++ Py.str_of_int (offset result) ++ Py.lit ")".

(** [f"{predicate}.{fmt}"] *)
Definition default_output (predicate : list N) (fmt : format) : list N :=
  predicate ++ Py.lit "." ++ format_str fmt.

(** [execute(ctx, predicate, limit, offset, fmt, output)] *)
Definition execute (ctx : Ctx) (predicate : list N) (limit offset : Z)
    (fmt : option format) (output : option (list N)) : M unit :=
  (if Py.truthy_opt output && negb (format_truthy fmt)
   then
     err_console_print
       (Py.lit "[red]Error:[/red] --output requires --format (-f).");;
     sys_exit 1
   else mret tt);;
  client ← _get_client (api_key ctx) (base_url ctx);
  match fmt with
  | Some fmt =>
      (* file extract mode *)
      let output :=
        match output with
        | None => default_output predicate fmt
        | Some o => o
        end in
      data ← guarded client (client_export client predicate fmt limit offset output);
      console_print (SavedNotice output (Py.len data))
  | None =>
      (* default table display *)
      result ← guarded client (client_execute client predicate limit offset);
      match rows result with
      | [] => console_print (Markup (no_rows_text predicate))
      | _ :: _ =>
          console_print
            (RTable (result_table predicate (execute_caption result) result))
      end
  end.

(** [f'[dim]No results for "{keywords}" in {predicate}.[/dim]'] *)
Definition no_results_text (keywords predicate : list N) : list N :=
  Py.lit "[dim]No results for " ++ Py.dquote ++ keywords ++ Py.dquote
  ++ Py.lit " in " ++ predicate ++ Py.lit ".[/dim]".

(** [f'Search "{keywords}" in {predicate}'] *)
Definition search_title (keywords predicate : list N) : list N :=
  Py.lit "Search " ++ Py.dquote ++ keywords ++ Py.dquote ++ Py.lit " in "
  ++ predicate.

(** [f"Showing {result.row_count} of {result.total_rows} rows"] *)
Definition search_caption (result : Result) : list N :=
  Py.lit "Showing " ++ Py.str_of_int (row_count result) ++ Py.lit " of "
  ++ Py.str_of_int (total_rows result) ++ Py.lit " rows".

(** [search(ctx, predicate, keywords, limit, offset)] *)
Definition search (ctx : Ctx) (predicate keywords : list N) (limit offset : Z)
  : M unit :=
  client ← _get_client (api_key ctx) (base_url ctx);
  result ← guarded client (client_search client predicate keywords limit offset);
  match rows result with
  | [] => console_print (Markup (no_results_text keywords predicate))
  | _ :: _ =>
      console_print
        (RTable (result_table (search_title keywords predicate)
                   (search_caption result) result))
  end.

(** [upload(ctx, file, name, description, overwrite)], the command [add]. *)
Definition upload (ctx : Ctx) (file : list N)
    (name description : option (list N)) (overwrite : bool) : M unit :=
  client ← _get_client (api_key ctx) (base_url ctx);
  result ← guarded client (client_upload client file name description overwrite);
  let col_names :=
    match up_columns result with
    | [] => Py.lit "-"
    | cols => Py.join (Py.lit ", ") (List.map col_name cols)
    end in
  console_print
    (RTable
       (mkTable (Py.lit "Upload Result") None
          [ mkTableColumn (Py.lit "Predicate") (Py.lit "bold cyan") false false;
            mkTableColumn (Py.lit "Columns") (Py.lit "bold") false false;
            mkTableColumn (Py.lit "Rows") [] false true ]
          [ [ CellStr (up_predicate result); CellStr col_names;
              CellStr (Py.str_of_int (up_row_count result)) ] ])).

(** [_ask_cmd(ctx, question)]; [question] is the tuple of tokens. *)
Definition _ask_cmd (ctx : Ctx) (question : list (list N)) : M unit :=
  let full_question := Py.join (Py.lit " ") question in
  client ← _get_client (api_key ctx) (base_url ctx);
  answer ← guarded client (client_ask client full_question);
  console_print (Markdown answer).

(** ** The command line, once its options are converted *)

(** The defaults in the option declarations of [execute] and [search]:
    [--limit] has [default=20], [--offset] has [default=0]. *)
Definition limit_default : Z := 20.
Definition offset_default : Z := 0.

(** An invocation of a command with its arguments and the options given
    on the command line; an option that was not given is [None], except
    the flag [--overwrite], which is then [False]. *)
Inductive invocation : Type :=
| InvList
| InvExecute (predicate : list N) (limit offset : option Z)
    (fmt : option format) (output : option (list N))
| InvSearch (predicate keywords : list N) (limit offset : option Z)
| InvAdd (file : list N) (name description : option (list N))
    (overwrite : bool)
| InvAsk (question : list (list N)).

(** The callback of the command, called with the declared default for
    every option that was not given. *)
Definition invoke (ctx : Ctx) (inv : invocation) : M unit :=
  match inv with
  | InvList => list_predicates ctx
  | InvExecute predicate limit offset fmt output =>
      execute ctx predicate (default limit_default limit)
        (default offset_default offset) fmt output
  | InvSearch predicate keywords limit offset =>
      search ctx predicate keywords (default limit_default limit)
        (default offset_default offset)
  | InvAdd file name description overwrite =>
      upload ctx file name description overwrite
  | InvAsk question => _ask_cmd ctx question
  end.

(** ** The command router *)

Inductive command : Type := CmdList | CmdExecute | CmdSearch | CmdAdd | CmdAsk.

(** [cli.commands]: the dict of the group, filled by the decorators
    [@cli.command("list")], ..., [@cli.command("_ask", hidden=True)]. *)
Definition commands : gmap (list N) command :=
  <[Py.lit "_ask" := CmdAsk]>
    (<[Py.lit "add" := CmdAdd]>
       (<[Py.lit "search" := CmdSearch]>
          (<[Py.lit "execute" := CmdExecute]>
             (<[Py.lit "list" := CmdList]> ∅)))).

(** [cmd_name in self.commands] *)
Definition in_commands (cmd_name : list N) : bool :=
  bool_decide (is_Some (commands !! cmd_name)).

Inductive resolution : Type :=
| Resolved (cmd_name : list N) (cmd : command) (args : list (list N))
| NoSuchCommand (cmd_name : list N)
| IndexError.

(** [click.Group.resolve_command(ctx, args)], which the subclass falls back
    on: the first token is looked up in [commands] and the command gets
    the tokens after it; an unknown name fails with "No such command". *)
Definition group_resolve_command (args : list (list N)) : resolution :=
  match args with
  | [] => IndexError
  | cmd_name :: rest =>
      match commands !! cmd_name with
      | Some cmd => Resolved cmd_name cmd rest
      | None => NoSuchCommand cmd_name
      end
  end.

(** [_DefaultAskGroup.resolve_command(ctx, args)]
<<
    cmd_name = args[0] if args else None
    if cmd_name and cmd_name not in self.commands:
        return "_ask", self.commands["_ask"], args
    return super().resolve_command(ctx, args)
>> *)
Definition resolve_command (args : list (list N)) : resolution :=
  match head args with
  | Some cmd_name =>
      if Py.truthy cmd_name && negb (in_commands cmd_name)
      then
        (* not a known subcommand: everything goes to the hidden command *)
        match commands !! Py.lit "_ask" with
        | Some cmd => Resolved (Py.lit "_ask") cmd args
        | None => IndexError
        end
      else group_resolve_command args
  | None => group_resolve_command args
  end.

(** The tokens click's parser reads as options: they start with a dash
    and have more than one character. *)
Definition option_like (token : list N) : bool :=
  match token with
  | 45%N :: _ :: _ => true
  | _ => false
  end.

(** The parser of a command that declares no option of its own, so that
    [--help] is its only option.  Tokens are read from left to right:
    [--] ends the options and is dropped, [--help] asks for the help
    page, any other option is an error, and every other token is
    positional.  The result is the positional tokens and whether help
    was asked for, or [None] on an error. *)
Fixpoint scan_args (args largs : list (list N)) (help : bool)
  : option (list (list N) * bool) :=
  match args with
  | [] => Some (largs, help)
  | arg :: rest =>
      if Py.eqb arg (Py.lit "--") then Some (largs ++ rest, help)
      else if option_like arg then
        if Py.eqb arg (Py.lit "--help") then scan_args rest largs true
        else None
      else scan_args rest (largs ++ [arg]) help
  end.

Inductive parsed : Type :=
| Question (question : list (list N))
| ShowHelp
| UsageError.

(** The parameters of [_ask]: [@click.argument("question", nargs=-1,
    required=True)] takes every positional token and wants at least one. *)
Definition ask_parse_args (args : list (list N)) : parsed :=
  match scan_args args [] false with
  | None => UsageError
  | Some (_, true) => ShowHelp
  | Some ([], false) => UsageError
  | Some (question, false) => Question question
  end.

(** Where the tokens that follow the global options end up. *)
Inductive route : Type :=
| RouteAsk (question : list (list N))
    (* [_ask_cmd] is called with this tuple *)
| RouteCommand (cmd : command) (args : list (list N))
    (* a named command gets the tokens after its name *)
| RouteHelp
    (* a help page is printed, exit status 0 *)
| RouteUsageError.
    (* click reports a usage error, exit status 2 *)

(** What the group does with its tokens: it resolves the command with
    [resolve_command] and lets that command parse the tokens it was
    handed. *)
Definition route_of (args : list (list N)) : route :=
  match args with
  | [] => RouteHelp  (* the group prints its help when no token is left *)
  | _ :: _ =>
      match resolve_command args with
      | Resolved _ CmdAsk rest =>
          match ask_parse_args rest with
          | Question question => RouteAsk question
          | ShowHelp => RouteHelp
          | UsageError => RouteUsageError
          end
      | Resolved _ cmd rest => RouteCommand cmd rest
      | NoSuchCommand _ | IndexError => RouteUsageError
      end
  end.

(** ** Observing a run *)

Definition is_new (ev : event) : bool :=
  match ev with EvNew _ => true | _ => false end.

Definition is_close (ev : event) : bool :=
  match ev with EvClose => true | _ => false end.

(** How many clients the run created, and how many times [close] ran. *)
Definition news (tr : list event) : nat := length (List.filter is_new tr).
Definition closes (tr : list event) : nat := length (List.filter is_close tr).

Definition raised {A} (r : res A) : option exn :=
  match r with Ok _ => None | Exc e => Some e end.

(** What the world raises, if anything, when the call [c] is made. *)
Definition call_raises (w : World) (c : remote_call) : option exn :=
  match c with
  | CallList => raised (w_list w)
  | CallExecute p l o => raised (w_execute w p l o)
  | CallExport p f l o out => raised (w_export w p f l o out)
  | CallSearch p k l o => raised (w_search w p k l o)
  | CallUpload f n d ov => raised (w_upload w f n d ov)
  | CallAsk q => raised (w_ask w q)
  end.

(** The remote call an invocation leads to; none when [execute] is given
    a truthy output path and no format. *)
Definition call_of (inv : invocation) : option remote_call :=
  match inv with
  | InvList => Some CallList
  | InvExecute predicate limit offset None output =>
      if Py.truthy_opt output then None
      else Some (CallExecute predicate (default 20 limit) (default 0 offset))
  | InvExecute predicate limit offset (Some fmt) output =>
      Some (CallExport predicate fmt (default 20 limit) (default 0 offset)
              (default (predicate ++ Py.lit "." ++ format_str fmt) output))
  | InvSearch predicate keywords limit offset =>
      Some (CallSearch predicate keywords (default 20 limit) (default 0 offset))
  | InvAdd file name description overwrite =>
      Some (CallUpload file name description overwrite)
  | InvAsk question => Some (CallAsk (Py.join (Py.lit " ") question))
  end.

(** The runs of a command that builds its client from [kw] and makes the
    remote call [c].  The constructor refuses or breaks and there is no
    client; or the call returns, fails with the SDK's error, or breaks
    with another exception, and the client is closed after it.  An error
    is reported on the error console and the result is printed on the
    console; when such a print raises, nothing is printed and the
    exception of the print leaves the command. *)
Inductive session (kw : gmap (list N) (list N)) (c : remote_call) (w : World)
  : list event * res unit -> Prop :=
| session_refused (message : list N) :
    w_construct w kw = Exc (SynalinksError message) ->
    w_err_print w (error_text message) = None ->
    session kw c w ([EvErr (error_text message)], Exc (SystemExit 1))
| session_refused_unreported (message name : list N) :
    w_construct w kw = Exc (SynalinksError message) ->
    w_err_print w (error_text message) = Some name ->
    session kw c w ([], Exc (OtherError name))
| session_no_client (e : exn) :
    w_construct w kw = Exc e ->
    (forall message, e <> SynalinksError message) ->
    session kw c w ([], Exc e)
| session_done (r : renderable) :
    w_construct w kw = Ok tt ->
    call_raises w c = None ->
    w_print w r = None ->
    session kw c w ([EvNew kw; EvCall c; EvClose; EvPrint r], Ok tt)
| session_unprinted (r : renderable) (name : list N) :
    w_construct w kw = Ok tt ->
    call_raises w c = None ->
    w_print w r = Some name ->
    session kw c w ([EvNew kw; EvCall c; EvClose], Exc (OtherError name))
| session_failed (message : list N) :
    w_construct w kw = Ok tt ->
    call_raises w c = Some (SynalinksError message) ->
    w_err_print w (error_text message) = None ->
    session kw c w
      ([EvNew kw; EvCall c; EvErr (error_text message); EvClose],
       Exc (SystemExit 1))
| session_failed_unreported (message name : list N) :
    w_construct w kw = Ok tt ->
    call_raises w c = Some (SynalinksError message) ->
    w_err_print w (error_text message) = Some name ->
    session kw c w ([EvNew kw; EvCall c; EvClose], Exc (OtherError name))
| session_broken (e : exn) :
    w_construct w kw = Ok tt ->
    call_raises w c = Some e ->
    (forall message, e <> SynalinksError message) ->
    session kw c w ([EvNew kw; EvCall c; EvClose], Exc e).

(** ** Sample worlds and inputs *)

Definition empty_result : Result := mkResult [] [] 0 0 0.

(** A service on which every call succeeds and every table is empty. *)
Definition calm_world : World :=
  mkWorld (fun _ => Ok tt)
    (Ok (mkPredicateList [] [] []))
    (fun _ _ _ => Ok empty_result)
    (fun _ _ _ _ _ => Ok [])
    (fun _ _ _ _ => Ok empty_result)
    (fun file _ _ _ => Ok (mkUploadResult file [] 0))
    (fun question => Ok question)
    (fun _ => None) (fun _ => None) (conj eq_refl eq_refl).

(** A service that accepts the client and fails every call. *)
Definition failing_world (message : list N) : World :=
  mkWorld (fun _ => Ok tt)
    (Exc (SynalinksError message))
    (fun _ _ _ => Exc (SynalinksError message))
    (fun _ _ _ _ _ => Exc (SynalinksError message))
    (fun _ _ _ _ => Exc (SynalinksError message))
    (fun _ _ _ _ => Exc (SynalinksError message))
    (fun _ => Exc (SynalinksError message))
    (fun _ => None) (fun _ => None) (conj eq_refl eq_refl).

Definition no_credentials : Ctx := mkCtx None None.

Definition long_text : list N := repeat 97%N 81.

(** A service that accepts no client: the constructor fails. *)
Definition refusing_world (message : list N) : World :=
  mkWorld (fun _ => Exc (SynalinksError message))
    (Ok (mkPredicateList [] [] []))
    (fun _ _ _ => Ok empty_result)
    (fun _ _ _ _ _ => Ok [])
    (fun _ _ _ _ => Ok empty_result)
    (fun file _ _ _ => Ok (mkUploadResult file [] 0))
    (fun question => Ok question)
    (fun _ => None) (fun _ => None) (conj eq_refl eq_refl).

(** A service whose calls are interrupted by an exception that is not
    the SDK's. *)
Definition interrupted_world (name : list N) : World :=
  mkWorld (fun _ => Ok tt)
    (Exc (OtherError name))
    (fun _ _ _ => Exc (OtherError name))
    (fun _ _ _ _ _ => Exc (OtherError name))
    (fun _ _ _ _ => Exc (OtherError name))
    (fun _ _ _ _ => Exc (OtherError name))
    (fun _ => Exc (OtherError name))
    (fun _ => None) (fun _ => None) (conj eq_refl eq_refl).

(** A table of two columns and two rows; the second row has no [city]. *)
Definition sample_columns : list Column :=
  [mkColumn (Py.lit "name"); mkColumn (Py.lit "city")].

Definition sample_result : Result :=
  mkResult sample_columns
    [ {[ Py.lit "name" := VStr (Py.lit "Ada"); Py.lit "city" := VStr long_text ]};
      {[ Py.lit "name" := VInt 7 ]} ]
    2 10 0.

(** A service with one table, [sample_result], and three predicates. *)
Definition sample_world : World :=
  mkWorld (fun _ => Ok tt)
    (Ok (mkPredicateList
           [mkPredicate (Py.lit "Sales") (Py.lit "orders")]
           [mkPredicate (Py.lit "Customer") []]
           [mkPredicate (Py.lit "vip") (Py.lit "big spenders")]))
    (fun _ _ _ => Ok sample_result)
    (fun _ _ _ _ _ => Ok [1; 2; 3]%N)
    (fun _ _ _ _ => Ok sample_result)
    (fun file _ _ _ => Ok (mkUploadResult (Py.lit "Sales") sample_columns 2))
    (fun question => Ok question)
    (fun _ => None) (fun _ => None) (conj eq_refl eq_refl).






(** A text of 101 characters that starts with a carriage return. *)
Definition text_with_cr : list N := 13%N :: repeat 97%N 100.

(** The events a run prints on the console, and on the error console. *)
Definition is_print (ev : event) : bool :=
  match ev with EvPrint _ => true | _ => false end.

Definition is_err (ev : event) : bool :=
  match ev with EvErr _ => true | _ => false end.

(** * Properties *)

(** ** Cell rendering *)

Lemma lit_length (s : string) : length (Py.lit s) = String.length s.
Proof.
  unfold Py.lit. rewrite length_map.
  induction s as [| c s IH]; simpl; [reflexivity | now rewrite IH].
Qed.

Lemma strip_length_le (s : list N) :
  (length (strip_control_codes s) <= length s)%nat.
Proof. apply List.filter_length_le. Qed.

Lemma strip_app (s t : list N) :
  strip_control_codes (s ++ t) = strip_control_codes s ++ strip_control_codes t.
Proof. apply List.filter_app. Qed.

(** A text that holds no control code goes through [Text] unchanged. *)
Lemma strip_clean (s : list N) :
  Forall (fun c => is_control_code c = false) s -> strip_control_codes s = s.
Proof.
  induction 1 as [| c s Hc _ IH]; [reflexivity |].
  unfold strip_control_codes in *. simpl. now rewrite Hc, IH.
Qed.

Lemma strip_is_clean (s : list N) :
  Forall (fun c => is_control_code c = false) (strip_control_codes s).
Proof.
  induction s as [| c s IH]; [constructor |].
  unfold strip_control_codes in *. simpl.
  destruct (is_control_code c) eqn:Hc; simpl; [exact IH | now constructor].
Qed.

Lemma strip_idempotent (s : list N) :
  strip_control_codes (strip_control_codes s) = strip_control_codes s.
Proof. apply strip_clean, strip_is_clean. Qed.

(** On a value that is not [None], the cell is the text of the value, cut
    when it is longer than 80, as [Text] keeps it. *)
Lemma format_cell_not_none (v : value) :
  v <> VNone ->
  _format_cell v =
    mkText (strip_control_codes
              (if 80 <? Py.len (py_str v)
               then take 77 (py_str v) ++ Py.lit "..."
               else py_str v)) [].
Proof. destruct v; [congruence | reflexivity ..]. Qed.

Lemma py_str_none_short : Py.len (py_str VNone) = 4.
Proof. reflexivity. Qed.

Lemma truncated_length (s : list N) :
  80 < Py.len s -> Py.len (take 77 s ++ Py.lit "...") = 80.
Proof.
  unfold Py.len. intros H.
  rewrite length_app, length_take, lit_length.
  change (String.length "...") with 3%nat. lia.
Qed.

Lemma strip_ellipsis : strip_control_codes (Py.lit "...") = Py.lit "...".
Proof. reflexivity. Qed.

(** C4, as the code has it: a cell whose text is longer than 80 characters
    is made from the first 77 characters of the text followed by the three
    characters of the ellipsis marker, 80 characters in all, and [Text]
    removes the control codes among the 77: the cell has 80 characters
    when there is none, and never more. *)
Theorem format_cell_truncates (v : value) :
  80 < Py.len (py_str v) ->
  _format_cell v
  = mkText (strip_control_codes (take 77 (py_str v)) ++ Py.lit "...") []
  /\ length (take 77 (py_str v)) = 77%nat
  /\ length (Py.lit "...") = 3%nat
  /\ Py.len (plain (_format_cell v)) <= 80
  /\ (Forall (fun c => is_control_code c = false) (take 77 (py_str v)) ->
      _format_cell v = mkText (take 77 (py_str v) ++ Py.lit "...") []
      /\ Py.len (plain (_format_cell v)) = 80).
Proof.
  intros Hlong.
  assert (Hv : v <> VNone).
  { intros ->. rewrite py_str_none_short in Hlong. lia. }
  rewrite (format_cell_not_none v Hv).
  destruct (Z.ltb_spec 80 (Py.len (py_str v))) as [_ | Hle]; [| lia].
  rewrite strip_app, strip_ellipsis.
  assert (H77 : length (take 77 (py_str v)) = 77%nat).
  { rewrite length_take. unfold Py.len in Hlong. lia. }
  split; [reflexivity |]. split; [exact H77 |]. split; [reflexivity |]. split.
  - simpl plain. unfold Py.len. rewrite length_app, lit_length.
    pose proof (strip_length_le (take 77 (py_str v))) as Hle.
    change (String.length "...") with 3%nat. lia.
  - intros Hclean. rewrite (strip_clean _ Hclean). split; [reflexivity |].
    simpl plain. now apply truncated_length.
Qed.

Lemma format_cell_truncates_witness :
  80 < Py.len (py_str (VStr long_text))
  /\ plain (_format_cell (VStr long_text)) = repeat 97%N 77 ++ Py.lit "...".
Proof.
  assert (H : 80 < Py.len (py_str (VStr long_text))) by (vm_compute; reflexivity).
  split; [exact H |].
  destruct (format_cell_truncates (VStr long_text) H) as [-> _].
  vm_compute. reflexivity.
Defined.

(** C4 as stated fails: of a text of 101 characters that starts with a
    carriage return the cell keeps 79 characters, the 76 that follow the
    carriage return and the ellipsis; it is not the first 77 characters
    followed by the ellipsis. *)
Lemma truncated_cell_can_be_shorter :
  80 < Py.len (py_str (VStr text_with_cr))
  /\ plain (_format_cell (VStr text_with_cr)) = repeat 97%N 76 ++ Py.lit "..."
  /\ Py.len (plain (_format_cell (VStr text_with_cr))) = 79
  /\ plain (_format_cell (VStr text_with_cr))
     <> take 77 (py_str (VStr text_with_cr)) ++ Py.lit "...".
Proof.
  split; [reflexivity |]. split; [reflexivity |]. split; [reflexivity |].
  vm_compute. discriminate.
Qed.

(** C7: a cell that is null or missing from its row is rendered as the
    placeholder [null] in a dim italic style: the placeholder is not the
    empty string, no value other than [None] is rendered the same way, and
    the rendered row keeps one cell for every column. *)
Theorem null_cell_placeholder
    (cols : list Column) (row : gmap (list N) value) (i : nat) (col : Column) :
  cols !! i = Some col ->
  row !! col_name col = None \/ row !! col_name col = Some VNone ->
  format_row cols row !! i = Some (mkText (Py.lit "null") (Py.lit "dim italic"))
  /\ length (format_row cols row) = length cols
  /\ Py.lit "null" <> []
  /\ forall v, v <> VNone ->
       _format_cell v <> mkText (Py.lit "null") (Py.lit "dim italic").
Proof.
  intros Hcol Hrow. unfold format_row. repeat split.
  - rewrite list_lookup_fmap, Hcol. simpl. unfold row_get.
    destruct Hrow as [-> | ->]; reflexivity.
  - apply length_map.
  - discriminate.
  - intros v Hv. rewrite (format_cell_not_none v Hv).
    intros H. apply (f_equal style) in H. discriminate H.
Qed.

Lemma null_cell_placeholder_witness :
  format_row [mkColumn (Py.lit "region"); mkColumn (Py.lit "total")]
    {[ Py.lit "total" := VInt 7 ]} !! 0%nat
  = Some (mkText (Py.lit "null") (Py.lit "dim italic")).
Proof.
  refine (proj1 (null_cell_placeholder
            [mkColumn (Py.lit "region"); mkColumn (Py.lit "total")]
            {[ Py.lit "total" := VInt 7 ]} 0 (mkColumn (Py.lit "region")) _ _)).
  - reflexivity.
  - left. vm_compute. reflexivity.
Defined.

Lemma format_cell_length_le (v : value) : Py.len (plain (_format_cell v)) <= 80.
Proof.
  assert (Hcases : v = VNone \/ v <> VNone)
    by (destruct v; [left; reflexivity | right; discriminate ..]).
  destruct Hcases as [-> | Hv]; [vm_compute; discriminate |].
  rewrite (format_cell_not_none v Hv). simpl plain.
  match goal with
  | |- Py.len (strip_control_codes ?s) <= 80 =>
      pose proof (strip_length_le s) as Hstrip;
      assert (Hs : Py.len s <= 80)
  end.
  { destruct (Z.ltb_spec 80 (Py.len (py_str v))) as [Hlong | Hshort]; [| lia].
    rewrite truncated_length; lia. }
  unfold Py.len in *. lia.
Qed.

(** C9: every value has a rendered cell, its text has at most 80
    characters, and formatting that text again returns it unchanged. *)
Theorem format_cell_bounded_idempotent (v : value) :
  (exists t, _format_cell v = t)
  /\ Py.len (plain (_format_cell v)) <= 80
  /\ plain (_format_cell (VStr (plain (_format_cell v)))) = plain (_format_cell v).
Proof.
  pose proof (format_cell_length_le v) as Hlen.
  split; [eexists; reflexivity |]. split; [exact Hlen |].
  rewrite (format_cell_not_none (VStr _)) by discriminate. simpl py_str.
  destruct (Z.ltb_spec 80 (Py.len (plain (_format_cell v)))) as [Hlong | _];
    [lia |].
  simpl plain at 1. apply strip_clean.
  assert (Hcases : v = VNone \/ v <> VNone)
    by (destruct v; [left; reflexivity | right; discriminate ..]).
  destruct Hcases as [-> | Hv]; [vm_compute; repeat constructor |].
  rewrite (format_cell_not_none v Hv). apply strip_is_clean.
Qed.

(** ** Running a command *)

Lemma get_client_run (api base : option (list N)) (w : World) :
  _get_client api base w =
    match w_construct w (build_kwargs api base) with
    | Ok _ => ([EvNew (build_kwargs api base)], Ok (mkClient (build_kwargs api base)))
    | Exc (SynalinksError message) =>
        match w_err_print w (error_text message) with
        | None => ([EvErr (error_text message)], Exc (SystemExit 1))
        | Some name => ([], Exc (OtherError name))
        end
    | Exc e => ([], Exc e)
    end.
Proof.
  unfold _get_client, try_except, SynalinksMemory, answer, emit, mbind, M_bind, bind.
  destruct (w_construct w (build_kwargs api base)) as [[] | []]; try reflexivity.
  unfold report_and_exit, err_console_print, sys_exit, raise, mbind, M_bind, bind.
  destruct (w_err_print w (error_text message)); reflexivity.
Qed.

Lemma guarded_call_run {A} (client : Client) (c : remote_call)
    (f : World -> res A) (w : World) :
  guarded client (emit (EvCall c);; answer f) w =
    match f w with
    | Ok a => ([EvCall c; EvClose], Ok a)
    | Exc (SynalinksError message) =>
        match w_err_print w (error_text message) with
        | None =>
            ([EvCall c; EvErr (error_text message); EvClose], Exc (SystemExit 1))
        | Some name => ([EvCall c; EvClose], Exc (OtherError name))
        end
    | Exc e => ([EvCall c; EvClose], Exc e)
    end.
Proof.
  unfold guarded, try_finally, try_except, client_close, answer, emit, mbind,
    M_bind, bind.
  destruct (f w) as [a | []]; try reflexivity.
  unfold report_and_exit, err_console_print, sys_exit, raise, mbind, M_bind, bind.
  destruct (w_err_print w (error_text message)); reflexivity.
Qed.

(** The shape all five commands share: get the client, make one guarded
    call, hand its value to the rest of the command. *)
Lemma session_run {A} (api base : option (list N)) (c : remote_call)
    (f : World -> res A) (k : A -> M unit) (w : World) :
  (client ← _get_client api base;
   x ← guarded client (emit (EvCall c);; answer f);
   k x) w =
    let kw := build_kwargs api base in
    match w_construct w kw with
    | Ok _ =>
        match f w with
        | Ok a => let '(t, r) := k a w in (EvNew kw :: EvCall c :: EvClose :: t, r)
        | Exc (SynalinksError message) =>
            match w_err_print w (error_text message) with
            | None =>
                ([EvNew kw; EvCall c; EvErr (error_text message); EvClose],
                 Exc (SystemExit 1))
            | Some name => ([EvNew kw; EvCall c; EvClose], Exc (OtherError name))
            end
        | Exc e => ([EvNew kw; EvCall c; EvClose], Exc e)
        end
    | Exc (SynalinksError message) =>
        match w_err_print w (error_text message) with
        | None => ([EvErr (error_text message)], Exc (SystemExit 1))
        | Some name => ([], Exc (OtherError name))
        end
    | Exc e => ([], Exc e)
    end.
Proof.
  unfold mbind at 1 2. unfold M_bind, bind.
  rewrite get_client_run.
  destruct (w_construct w (build_kwargs api base)) as [[] | []]; try reflexivity.
  - rewrite guarded_call_run.
    destruct (f w) as [a | []]; try reflexivity.
    + destruct (k a w) as [t r]. reflexivity.
    + destruct (w_err_print w (error_text message)); reflexivity.
  - destruct (w_err_print w (error_text message)); reflexivity.
Qed.

Lemma console_print_run (r : renderable) (w : World) :
  console_print r w =
    match w_print w r with
    | None => ([EvPrint r], Ok tt)
    | Some name => ([], Exc (OtherError name))
    end.
Proof. reflexivity. Qed.

Lemma session_intro {A} (api base : option (list N)) (c : remote_call)
    (f : World -> res A) (k : A -> M unit) (w : World) :
  call_raises w c = raised (f w) ->
  (forall a, exists r, k a = console_print r) ->
  session (build_kwargs api base) c w
    ((client ← _get_client api base;
      x ← guarded client (emit (EvCall c);; answer f);
      k x) w).
Proof.
  intros Hcall Hk. rewrite session_run. cbv zeta.
  destruct (w_construct w (build_kwargs api base)) as [[] | e] eqn:Hnew.
  - destruct (f w) as [a | e] eqn:Hf; simpl in Hcall.
    + destruct (Hk a) as [r ->]. rewrite console_print_run.
      destruct (w_print w r) as [name |] eqn:Hp.
      * now apply (session_unprinted _ _ _ r).
      * now apply session_done.
    + destruct e as [code | message | name].
      * apply session_broken; auto; discriminate.
      * destruct (w_err_print w (error_text message)) as [name |] eqn:He.
        -- now apply (session_failed_unreported _ _ _ message).
        -- now apply session_failed.
      * apply session_broken; auto; discriminate.
  - destruct e as [code | message | name].
    + apply session_no_client; auto; discriminate.
    + destruct (w_err_print w (error_text message)) as [name |] eqn:He.
      * now apply (session_refused_unreported _ _ _ message).
      * now apply session_refused.
    + apply session_no_client; auto; discriminate.
Qed.

Lemma ret_then {B} (m : M B) (w : World) : (mret tt;; m) w = m w.
Proof.
  unfold mbind, M_bind, bind, mret, M_ret, ret.
  destruct (m w) as [t r]. reflexivity.
Qed.

Lemma usage_text_prints (w : World) : w_err_print w usage_text = None.
Proof. exact (proj1 (w_literals w)). Qed.

(** The usage error of [execute]: nothing but the message, then exit 1. *)
Lemma execute_usage_run (ctx : Ctx) (predicate : list N) (limit offset : Z)
    (output : option (list N)) (w : World) :
  Py.truthy_opt output = true ->
  execute ctx predicate limit offset None output w
  = ([EvErr usage_text], Exc (SystemExit 1)).
Proof.
  intros Hout. unfold execute. rewrite Hout. cbn [andb negb format_truthy].
  unfold mbind at 1. unfold M_bind, bind.
  unfold mbind at 1. unfold M_bind, bind.
  unfold err_console_print.
  change (Py.lit "[red]Error:[/red] --output requires --format (-f).")
    with usage_text.
  rewrite usage_text_prints. reflexivity.
Qed.

(** Every run of a command is the usage error of [execute] or a session
    around the one remote call of the invocation. *)
Lemma invoke_call_of (ctx : Ctx) (inv : invocation) (w : World) :
  match call_of inv with
  | None => invoke ctx inv w = ([EvErr usage_text], Exc (SystemExit 1))
  | Some c =>
      session (build_kwargs (api_key ctx) (base_url ctx)) c w (invoke ctx inv w)
  end.
Proof.
  destruct inv as [| predicate limit offset fmt output
                   | predicate keywords limit offset
                   | file name description overwrite | question]; simpl.
  - unfold list_predicates, client_list.
    apply session_intro; [reflexivity |].
    intros a. destruct (table_rows _); eexists; reflexivity.
  - destruct fmt as [fmt |].
    + unfold execute, client_export.
      replace (Py.truthy_opt output && negb (format_truthy (Some fmt)))
        with false by (simpl; now rewrite andb_false_r).
      rewrite ret_then.
      destruct output as [path |]; simpl default.
      * apply session_intro; [reflexivity |].
        intros a. eexists. reflexivity.
      * apply session_intro; [reflexivity |].
        intros a. eexists. reflexivity.
    + destruct (Py.truthy_opt output) eqn:Hout.
      * now apply execute_usage_run.
      * unfold execute, client_execute. rewrite Hout.
        cbn [andb]. rewrite ret_then.
        apply session_intro; [reflexivity |].
        intros a. destruct (rows a); eexists; reflexivity.
  - unfold search, client_search.
    apply session_intro; [reflexivity |].
    intros a. destruct (rows a); eexists; reflexivity.
  - unfold upload, client_upload.
    apply session_intro; [reflexivity |].
    intros a. eexists. reflexivity.
  - unfold _ask_cmd, client_ask.
    apply session_intro; [reflexivity |].
    intros a. eexists. reflexivity.
Qed.

Lemma invoke_session (ctx : Ctx) (inv : invocation) (w : World) :
  invoke ctx inv w = ([EvErr usage_text], Exc (SystemExit 1))
  \/ exists c,
       session (build_kwargs (api_key ctx) (base_url ctx)) c w (invoke ctx inv w).
Proof.
  pose proof (invoke_call_of ctx inv w) as H.
  destruct (call_of inv) as [c |]; [right; now exists c | now left].
Qed.

(** ** The client is released *)

Ltac in_trace H :=
  repeat (apply elem_of_cons in H as [H | H];
          [try discriminate H; try (injection H as ->) |]);
  try (apply elem_of_nil in H; contradiction).

(** C2: in every run of every command the client is closed as many times
    as a client was created, which is at most once; and when the remote
    call raises the SDK's error, [close] has run exactly once, as the
    last thing before the process exits with status 1, through
    [sys.exit(1)] once the error is on the error console. *)
Theorem client_closed_exactly_once (ctx : Ctx) (inv : invocation) (w : World) :
  let tr := (invoke ctx inv w).1 in
  let r := (invoke ctx inv w).2 in
  closes tr = news tr
  /\ (news tr <= 1)%nat
  /\ forall c message,
       EvCall c ∈ tr ->
       call_raises w c = Some (SynalinksError message) ->
       closes tr = 1%nat /\ last tr = Some EvClose
       /\ exit_status r = 1
       /\ (w_err_print w (error_text message) = None -> r = Exc (SystemExit 1)).
Proof.
  cbv zeta.
  destruct (invoke_session ctx inv w) as [-> | [c0 Hrun]].
  - split; [reflexivity |]. split; [unfold news; simpl; lia |].
    intros c message Hin. simpl in Hin. in_trace Hin.
  - inversion Hrun as [m Hnew He Heq | m n Hnew He Heq | e Hnew Hne Heq
                       | r Hnew Hcall Hp Heq | r n Hnew Hcall Hp Heq
                       | m Hnew Hcall He Heq | m n Hnew Hcall He Heq
                       | e Hnew Hcall Hne Heq];
      simpl; (split; [reflexivity |]); (split; [unfold news; simpl; lia |]);
      intros c message Hin Hraise; simpl in Hin; in_trace Hin;
      try congruence.
    + repeat split; reflexivity.
    + repeat split; try reflexivity. intros Hprinted.
      rewrite Hraise in Hcall. injection Hcall as <-. congruence.
Qed.

Lemma client_closed_exactly_once_witness :
  closes (invoke no_credentials InvList (failing_world (Py.lit "down"))).1 = 1%nat
  /\ exit_status (invoke no_credentials InvList (failing_world (Py.lit "down"))).2 = 1.
Proof.
  destruct (client_closed_exactly_once no_credentials InvList
              (failing_world (Py.lit "down"))) as (_ & _ & H).
  destruct (H CallList (Py.lit "down")) as (Hclose & _ & Hexit & _).
  - apply (list_elem_of_lookup_2 _ 1%nat). reflexivity.
  - reflexivity.
  - split; assumption.
Defined.
(** ** [execute] *)

(** With a non-empty output path and no format, [execute] prints the usage
    error and exits with status 1; no client is created and no call made. *)
Lemma execute_output_requires_format (ctx : Ctx) (predicate : list N)
    (limit offset : option Z) (c : N) (path : list N) (w : World) :
  let out := invoke ctx (InvExecute predicate limit offset None (Some (c :: path))) w in
  out = ([EvErr usage_text], Exc (SystemExit 1))
  /\ exit_status out.2 = 1
  /\ news out.1 = 0%nat
  /\ forall call, EvCall call ∉ out.1.
Proof.
  cbv zeta. simpl invoke. rewrite execute_usage_run by reflexivity.
  repeat split. intros call Hin. in_trace Hin.
Qed.

(** C3: with the empty string as output path and no format, [execute]
    does not stop at the usage check: it creates the client and makes the
    remote call, and here it exits with status 0. *)
Theorem execute_empty_output_reaches_remote :
  invoke no_credentials
    (InvExecute (Py.lit "Sales") None None None (Some [])) calm_world
  = ([ EvNew ∅; EvCall (CallExecute (Py.lit "Sales") 20 0); EvClose;
       EvPrint (Markup (no_rows_text (Py.lit "Sales"))) ],
     Ok tt).
Proof. reflexivity. Qed.




(** ** [search] *)




(** ** What reaches the remote call *)

(** In a session the only call is the session's own, and it is made as
    soon as there is a client. *)
Lemma session_calls (kw : gmap (list N) (list N)) (c : remote_call) (w : World)
    (out : list event * res unit) :
  session kw c w out ->
  (w_construct w kw = Ok tt -> EvCall c ∈ out.1)
  /\ forall c', EvCall c' ∈ out.1 -> c' = c.
Proof.
  intros Hrun.
  inversion Hrun as [m Hnew He Heq | m n Hnew He Heq | e Hnew Hne Heq
                     | r Hnew Hcall Hp Heq | r n Hnew Hcall Hp Heq
                     | m Hnew Hcall He Heq | m n Hnew Hcall He Heq
                     | e Hnew Hcall Hne Heq]; simpl;
    (split; [intros Hok | intros c' Hin; in_trace Hin; reflexivity]);
    try (rewrite Hok in Hnew; discriminate Hnew);
    try (apply (list_elem_of_lookup_2 _ 1%nat); reflexivity).
Qed.

(** C6: when [execute] is given a format and no output path, the output
    path of the remote call is [<predicate>.<format>]; the predicate
    [Sales] with the format [csv] gives [Sales.csv]. *)
Theorem execute_default_output (ctx : Ctx) (predicate : list N)
    (limit offset : option Z) (fmt : format) (w : World) :
  w_construct w (build_kwargs (api_key ctx) (base_url ctx)) = Ok tt ->
  let tr := (invoke ctx (InvExecute predicate limit offset (Some fmt) None) w).1 in
  EvCall (CallExport predicate fmt (default 20 limit) (default 0 offset)
            (predicate ++ Py.lit "." ++ format_str fmt)) ∈ tr
  /\ (forall c, EvCall c ∈ tr ->
        c = CallExport predicate fmt (default 20 limit) (default 0 offset)
              (predicate ++ Py.lit "." ++ format_str fmt))
  /\ default_output (Py.lit "Sales") csv = Py.lit "Sales.csv".
Proof.
  intros Hnew. cbv zeta.
  pose proof (invoke_call_of ctx
                (InvExecute predicate limit offset (Some fmt) None) w) as Hrun.
  simpl call_of in Hrun. apply session_calls in Hrun as [Hmade Honly].
  split; [now apply Hmade |]. split; [exact Honly | reflexivity].
Qed.

Lemma execute_default_output_witness :
  EvCall (CallExport (Py.lit "Sales") csv 20 0 (Py.lit "Sales.csv"))
    ∈ (invoke no_credentials
         (InvExecute (Py.lit "Sales") None None (Some csv) None) calm_world).1.
Proof.
  refine (proj1 (execute_default_output no_credentials (Py.lit "Sales") None None
                   csv calm_world _)).
  reflexivity.
Defined.

(** C8, as the code has it: [limit] and [offset] are integers of either
    sign; [execute] and [search] pass them to the remote call as they were
    given, and use 20 for a limit and 0 for an offset that was not given. *)
Theorem limit_offset_passed_on (ctx : Ctx) (predicate keywords : list N)
    (limit offset : option Z) (fmt : format) (output : option (list N))
    (w : World) :
  w_construct w (build_kwargs (api_key ctx) (base_url ctx)) = Ok tt ->
  (Py.truthy_opt output = false ->
   EvCall (CallExecute predicate (default 20 limit) (default 0 offset))
     ∈ (invoke ctx (InvExecute predicate limit offset None output) w).1)
  /\ EvCall (CallExport predicate fmt (default 20 limit) (default 0 offset)
               (default (default_output predicate fmt) output))
       ∈ (invoke ctx (InvExecute predicate limit offset (Some fmt) output) w).1
  /\ EvCall (CallSearch predicate keywords (default 20 limit) (default 0 offset))
       ∈ (invoke ctx (InvSearch predicate keywords limit offset) w).1
  /\ limit_default = 20 /\ offset_default = 0.
Proof.
  intros Hnew. split; [| split; [| split; [| split; reflexivity]]].
  - intros Hout.
    pose proof (invoke_call_of ctx
                  (InvExecute predicate limit offset None output) w) as Hrun.
    simpl call_of in Hrun. rewrite Hout in Hrun.
    apply session_calls in Hrun as [Hmade _]. now apply Hmade.
  - pose proof (invoke_call_of ctx
                  (InvExecute predicate limit offset (Some fmt) output) w) as Hrun.
    simpl call_of in Hrun.
    apply session_calls in Hrun as [Hmade _]. now apply Hmade.
  - pose proof (invoke_call_of ctx
                  (InvSearch predicate keywords limit offset) w) as Hrun.
    simpl call_of in Hrun.
    apply session_calls in Hrun as [Hmade _]. now apply Hmade.
Qed.

Lemma limit_offset_passed_on_witness :
  EvCall (CallSearch (Py.lit "Sales") (Py.lit "north") 20 0)
    ∈ (invoke no_credentials
         (InvSearch (Py.lit "Sales") (Py.lit "north") None None) calm_world).1.
Proof.
  refine (proj1 (proj2 (proj2
            (limit_offset_passed_on no_credentials (Py.lit "Sales")
               (Py.lit "north") None None csv None calm_world _)))).
  reflexivity.
Defined.

(** C8 as stated fails: a negative limit and a negative offset given on
    the command line are not refused; they reach the remote call. *)
Lemma negative_limit_reaches_remote :
  (invoke no_credentials
     (InvExecute (Py.lit "Sales") (Some (-5)) (Some (-3)) None None)
     calm_world).1 !! 1%nat
  = Some (EvCall (CallExecute (Py.lit "Sales") (-5) (-3)))
  /\ ~ (0 <= -5) /\ ~ (0 <= -3).
Proof. split; [reflexivity | split; lia]. Qed.

(** ** The default dispatch *)

Lemma ask_is_registered : commands !! Py.lit "_ask" = Some CmdAsk.
Proof. reflexivity. Qed.

(** A first token that is not empty and is not a key of [commands] sends
    every token to the hidden command. *)
Lemma resolve_command_unknown (first : list N) (rest : list (list N)) :
  first <> [] ->
  commands !! first = None ->
  resolve_command (first :: rest) = Resolved (Py.lit "_ask") CmdAsk (first :: rest).
Proof.
  intros Hne Hunknown. unfold resolve_command, in_commands.
  change (head (first :: rest)) with (Some first). cbv iota beta.
  rewrite Hunknown, ask_is_registered.
  destruct first as [| c s]; [congruence | reflexivity].
Qed.

(** A known name keeps its command, which gets the tokens after it. *)
Lemma resolve_command_known (name : list N) (cmd : command)
    (rest : list (list N)) :
  commands !! name = Some cmd ->
  resolve_command (name :: rest) = Resolved name cmd rest.
Proof.
  intros Hknown. unfold resolve_command, in_commands, group_resolve_command.
  change (head (name :: rest)) with (Some name). cbv iota beta.
  rewrite Hknown.
  rewrite bool_decide_eq_true_2 by (now exists cmd).
  now rewrite andb_false_r.
Qed.

Lemma positional_not_separator (token : list N) :
  option_like token = false -> Py.eqb token (Py.lit "--") = false.
Proof.
  intros Hpos. unfold Py.eqb. apply bool_decide_eq_false_2.
  intros ->. discriminate Hpos.
Qed.

(** Tokens that do not look like options are all positional, in order. *)
Lemma scan_args_positional (args largs : list (list N)) (help : bool) :
  Forall (fun token => option_like token = false) args ->
  scan_args args largs help = Some (largs ++ args, help).
Proof.
  intros Hpos. revert largs.
  induction Hpos as [| arg rest Harg _ IH]; intros largs; simpl.
  - now rewrite app_nil_r.
  - rewrite (positional_not_separator arg Harg), Harg, IH.
    now rewrite <- app_assoc.
Qed.

(** C1, as the code has it: when the first token after the global options
    is not empty, is none of the registered names [list], [execute],
    [search], [add] and [_ask], and no token looks like an option, the
    router calls the ask command with all the tokens, and the question of
    the remote call is the tokens joined by single spaces; the tokens
    [How], [are], [sales] give the question [How are sales]. *)
Theorem default_dispatch_ask (first : list N) (rest : list (list N)) :
  first <> [] ->
  commands !! first = None ->
  Forall (fun token => option_like token = false) (first :: rest) ->
  route_of (first :: rest) = RouteAsk (first :: rest)
  /\ (forall ctx w,
        let tr := (invoke ctx (InvAsk (first :: rest)) w).1 in
        (w_construct w (build_kwargs (api_key ctx) (base_url ctx)) = Ok tt ->
         EvCall (CallAsk (Py.join (Py.lit " ") (first :: rest))) ∈ tr)
        /\ forall c, EvCall c ∈ tr ->
             c = CallAsk (Py.join (Py.lit " ") (first :: rest)))
  /\ Py.join (Py.lit " ") [Py.lit "How"; Py.lit "are"; Py.lit "sales"]
     = Py.lit "How are sales".
Proof.
  intros Hne Hunknown Hpos. split; [| split; [| reflexivity]].
  - unfold route_of. rewrite (resolve_command_unknown first rest Hne Hunknown).
    unfold ask_parse_args. rewrite (scan_args_positional _ [] false Hpos).
    reflexivity.
  - intros ctx w. cbv zeta.
    pose proof (invoke_call_of ctx (InvAsk (first :: rest)) w) as Hrun.
    simpl call_of in Hrun. now apply session_calls in Hrun.
Qed.

Lemma default_dispatch_ask_witness :
  route_of [Py.lit "How"; Py.lit "are"; Py.lit "sales"]
  = RouteAsk [Py.lit "How"; Py.lit "are"; Py.lit "sales"].
Proof.
  refine (proj1 (default_dispatch_ask (Py.lit "How")
                   [Py.lit "are"; Py.lit "sales"] _ _ _)).
  - discriminate.
  - reflexivity.
  - repeat constructor.
Defined.

(** C1 as stated fails.  The name [_ask] is none of [list], [execute],
    [search] and [add], yet it is a registered command: it is taken off
    the tokens and is not part of the question.  A first token that is the
    empty string, and a token that looks like an option, end in a usage
    error and the ask command is not called. *)
Lemma ask_name_is_dropped_from_question :
  ~ In (Py.lit "_ask")
      [Py.lit "list"; Py.lit "execute"; Py.lit "search"; Py.lit "add"]
  /\ route_of [Py.lit "_ask"; Py.lit "hello"] = RouteAsk [Py.lit "hello"]
  /\ (invoke no_credentials (InvAsk [Py.lit "hello"]) calm_world).1 !! 1%nat
     = Some (EvCall (CallAsk (Py.lit "hello")))
  /\ Py.lit "hello" <> Py.join (Py.lit " ") [Py.lit "_ask"; Py.lit "hello"]
  /\ route_of [Py.lit ""; Py.lit "hello"] = RouteUsageError
  /\ route_of [Py.lit "what"; Py.lit "-x"] = RouteUsageError.
Proof.
  split; [| repeat split; try reflexivity; discriminate].
  intros Hin. simpl in Hin. intuition discriminate.
Qed.

(** * Further properties of the module *)

(** ** Cells and rows *)

(** X1: Of a value that is not [None] the cell shows the text with its
    control codes removed when the text has 80 characters or fewer, the
    cut starting at 81; a text without control codes keeps its first 77
    characters whatever its length, and is shown whole and unstyled up
    to 80 characters. *)
Theorem format_cell_keeps_prefix (v : value) :
  v <> VNone ->
  (Py.len (py_str v) <= 80 ->
   _format_cell v = mkText (strip_control_codes (py_str v)) [])
  /\ (Forall (fun c => is_control_code c = false) (py_str v) ->
      take 77 (plain (_format_cell v)) = take 77 (py_str v)
      /\ (Py.len (py_str v) <= 80 -> _format_cell v = mkText (py_str v) [])).
Proof.
  intros Hv. rewrite (format_cell_not_none v Hv). simpl plain.
  destruct (Z.ltb_spec 80 (Py.len (py_str v))) as [Hlong | Hshort].
  - split; [lia |]. intros Hclean. split; [| lia].
    rewrite strip_app, strip_ellipsis, strip_clean
      by (now apply Forall_take).
    apply take_app_length'. rewrite length_take. unfold Py.len in Hlong. lia.
  - split; [reflexivity |]. intros Hclean. rewrite (strip_clean _ Hclean).
    split; [reflexivity | reflexivity].
Qed.

Lemma format_cell_keeps_prefix_witness :
  take 77 (plain (_format_cell (VStr long_text))) = repeat 97%N 77.
Proof.
  refine (eq_trans
            (proj1 (proj2 (format_cell_keeps_prefix (VStr long_text) _) _)) _).
  - discriminate.
  - vm_compute. repeat constructor.
  - vm_compute. reflexivity.
Defined.

(** X2: A row is rendered from its values at the column names only: a key
    that is no column name does not change the rendered row. *)
Theorem format_row_ignores_other_keys (cols : list Column)
    (row : gmap (list N) value) (name : list N) (v : value) :
  ~ In name (List.map col_name cols) ->
  format_row cols (<[name := v]> row) = format_row cols row.
Proof.
  intros Hfresh. unfold format_row. apply map_ext_in.
  intros col Hcol. unfold row_get. rewrite lookup_insert_ne; [reflexivity |].
  intros ->. apply Hfresh. now apply in_map.
Qed.

Lemma format_row_ignores_other_keys_witness :
  format_row sample_columns
    (<[Py.lit "zip" := VInt 75]> {[ Py.lit "name" := VInt 7 ]})
  = format_row sample_columns {[ Py.lit "name" := VInt 7 ]}.
Proof.
  apply format_row_ignores_other_keys.
  simpl. intros [H | [H | []]]; discriminate H.
Defined.

(** X3: A key that is missing from a row and a key whose value is null are
    rendered the same way. *)
Theorem format_row_missing_is_null (cols : list Column)
    (row : gmap (list N) value) (name : list N) :
  format_row cols (delete name row) = format_row cols (<[name := VNone]> row).
Proof.
  unfold format_row. apply map_ext. intros col. unfold row_get.
  destruct (decide (name = col_name col)) as [-> | Hne].
  - now rewrite lookup_delete_eq, lookup_insert_eq.
  - now rewrite lookup_delete_ne, lookup_insert_ne.
Qed.

(** X4: The table of a result is rectangular whatever keys its rows have:
    its headers are the column names in order, it has one line per row,
    every line has one cell per column, and no cell is longer than 80. *)
Theorem result_table_rectangular (title caption : list N) (result : Result) :
  let t := result_table title caption result in
  List.map header (table_columns t) = List.map col_name (columns result)
  /\ length (table_rows t) = length (rows result)
  /\ Forall (fun line => length line = length (columns result)) (table_rows t)
  /\ Forall (Forall (fun c => exists text,
                         c = CellText text /\ Py.len (plain text) <= 80))
       (table_rows t).
Proof.
  cbv zeta. unfold result_table. simpl. repeat split.
  - rewrite List.map_map. reflexivity.
  - apply length_map.
  - apply List.Forall_map, Forall_forall. intros row _.
    unfold format_row. now rewrite !length_map.
  - apply List.Forall_map, Forall_forall. intros row _.
    apply List.Forall_map, Forall_forall. intros text Htext.
    exists text. split; [reflexivity |].
    unfold format_row in Htext. apply list_elem_of_In, in_map_iff in Htext.
    destruct Htext as (col & <- & _). apply format_cell_length_le.
Qed.

(** ** Failure paths of every command *)

(** What a session is, by the answers of the world. *)
Lemma session_inv (kw : gmap (list N) (list N)) (c : remote_call) (w : World)
    (out : list event * res unit) :
  session kw c w out ->
  match w_construct w kw with
  | Exc (SynalinksError message) =>
      out = match w_err_print w (error_text message) with
            | None => ([EvErr (error_text message)], Exc (SystemExit 1))
            | Some name => ([], Exc (OtherError name))
            end
  | Exc e => out = ([], Exc e)
  | Ok _ =>
      match call_raises w c with
      | None =>
          exists r,
            out = match w_print w r with
                  | None => ([EvNew kw; EvCall c; EvClose; EvPrint r], Ok tt)
                  | Some name =>
                      ([EvNew kw; EvCall c; EvClose], Exc (OtherError name))
                  end
      | Some (SynalinksError message) =>
          out = match w_err_print w (error_text message) with
                | None =>
                    ([EvNew kw; EvCall c; EvErr (error_text message); EvClose],
                     Exc (SystemExit 1))
                | Some name =>
                    ([EvNew kw; EvCall c; EvClose], Exc (OtherError name))
                end
      | Some e => out = ([EvNew kw; EvCall c; EvClose], Exc e)
      end
  end.
Proof.
  intros Hrun.
  inversion Hrun as [m Hnew He Heq | m n Hnew He Heq | e Hnew Hne Heq
                     | r Hnew Hcall Hp Heq | r n Hnew Hcall Hp Heq
                     | m Hnew Hcall He Heq | m n Hnew Hcall He Heq
                     | e Hnew Hcall Hne Heq];
    rewrite Hnew; try rewrite Hcall; try rewrite He; try reflexivity.
  - destruct e; try reflexivity. now destruct (Hne message).
  - exists r. now rewrite Hp.
  - exists r. now rewrite Hp.
  - destruct e; try reflexivity. now destruct (Hne message).
Qed.

(** X5: When the constructor of the client fails with the SDK's error, a
    command that asks for a client exits with status 1 and there is no
    client: nothing is created, called or closed.  When rich prints the
    error, the run is that message behind the [Error:] label on the error
    console and [sys.exit(1)]. *)
Theorem refused_client_makes_no_call (ctx : Ctx) (inv : invocation)
    (w : World) (c : remote_call) (message : list N) :
  call_of inv = Some c ->
  w_construct w (build_kwargs (api_key ctx) (base_url ctx))
  = Exc (SynalinksError message) ->
  let out := invoke ctx inv w in
  news out.1 = 0%nat /\ closes out.1 = 0%nat
  /\ (forall c', ~ In (EvCall c') out.1)
  /\ exit_status out.2 = 1
  /\ (w_err_print w (Py.lit "[red]Error:[/red] " ++ message) = None ->
      out = ([EvErr (Py.lit "[red]Error:[/red] " ++ message)],
             Exc (SystemExit 1))).
Proof.
  intros Hcall Hnew. cbv zeta.
  pose proof (invoke_call_of ctx inv w) as Hrun. rewrite Hcall in Hrun.
  apply session_inv in Hrun. rewrite Hnew in Hrun. rewrite Hrun.
  change (Py.lit "[red]Error:[/red] " ++ message) with (error_text message).
  destruct (w_err_print w (error_text message)) as [name |]; simpl;
    (split; [reflexivity |]); (split; [reflexivity |]);
    (split; [intros c' Hin; simpl in Hin; intuition discriminate |]);
    (split; [reflexivity |]); intros Hp; [discriminate Hp | reflexivity].
Qed.

Lemma refused_client_makes_no_call_witness :
  invoke no_credentials InvList (refusing_world (Py.lit "no key"))
  = ([EvErr (Py.lit "[red]Error:[/red] no key")], Exc (SystemExit 1)).
Proof.
  refine (proj2 (proj2 (proj2 (proj2
            (refused_client_makes_no_call no_credentials InvList
               (refusing_world (Py.lit "no key")) CallList (Py.lit "no key")
               _ _)))) _);
    reflexivity.
Defined.

(** X6: When the remote call fails with the SDK's error and rich prints
    the message, the run is: the client, the call, the message behind the
    [Error:] label on the error console, [close], then [sys.exit(1)].
    When the print of the message raises, the client is closed all the
    same and the exception of the print leaves the command.  Nothing is
    printed on the console either way. *)
Theorem remote_error_is_reported (ctx : Ctx) (inv : invocation)
    (w : World) (c : remote_call) (message : list N) :
  call_of inv = Some c ->
  w_construct w (build_kwargs (api_key ctx) (base_url ctx)) = Ok tt ->
  call_raises w c = Some (SynalinksError message) ->
  let kw := build_kwargs (api_key ctx) (base_url ctx) in
  let text := Py.lit "[red]Error:[/red] " ++ message in
  (w_err_print w text = None ->
   invoke ctx inv w
   = ([EvNew kw; EvCall c; EvErr text; EvClose], Exc (SystemExit 1)))
  /\ (forall name, w_err_print w text = Some name ->
      invoke ctx inv w = ([EvNew kw; EvCall c; EvClose], Exc (OtherError name))).
Proof.
  intros Hcall Hnew Hraise. cbv zeta.
  pose proof (invoke_call_of ctx inv w) as Hrun. rewrite Hcall in Hrun.
  apply session_inv in Hrun. rewrite Hnew, Hraise in Hrun.
  change (Py.lit "[red]Error:[/red] " ++ message) with (error_text message).
  split; [intros Hp | intros name Hp]; now rewrite Hp in Hrun.
Qed.

Lemma remote_error_is_reported_witness :
  invoke no_credentials (InvAsk [Py.lit "hello"]) (failing_world (Py.lit "down"))
  = ([ EvNew ∅; EvCall (CallAsk (Py.lit "hello"));
       EvErr (Py.lit "[red]Error:[/red] down"); EvClose ],
     Exc (SystemExit 1)).
Proof.
  refine (proj1 (remote_error_is_reported no_credentials
                   (InvAsk [Py.lit "hello"]) (failing_world (Py.lit "down"))
                   (CallAsk (Py.lit "hello")) (Py.lit "down") _ _ _) _);
    reflexivity.
Defined.

(** X7: An exception of the remote call that is not the SDK's error is not
    caught: the client is closed all the same, no message is printed and
    the exception leaves the command. *)
Theorem foreign_exception_closes_client (ctx : Ctx) (inv : invocation)
    (w : World) (c : remote_call) (e : exn) :
  call_of inv = Some c ->
  w_construct w (build_kwargs (api_key ctx) (base_url ctx)) = Ok tt ->
  call_raises w c = Some e ->
  (forall message, e <> SynalinksError message) ->
  invoke ctx inv w
  = ([EvNew (build_kwargs (api_key ctx) (base_url ctx)); EvCall c; EvClose],
     Exc e).
Proof.
  intros Hcall Hnew Hraise Hforeign.
  pose proof (invoke_call_of ctx inv w) as Hrun. rewrite Hcall in Hrun.
  apply session_inv in Hrun. rewrite Hnew, Hraise in Hrun.
  destruct e; try exact Hrun. now destruct (Hforeign message).
Qed.

Lemma foreign_exception_closes_client_witness :
  invoke no_credentials InvList (interrupted_world (Py.lit "KeyboardInterrupt"))
  = ([EvNew ∅; EvCall CallList; EvClose],
     Exc (OtherError (Py.lit "KeyboardInterrupt"))).
Proof.
  apply (foreign_exception_closes_client no_credentials InvList
           (interrupted_world (Py.lit "KeyboardInterrupt")) CallList);
    [reflexivity | reflexivity | reflexivity | discriminate].
Defined.

(** The shapes a run can have, whatever the command and the world. *)
(** The shapes a run can have, whatever the command and the world. *)
Lemma invoke_shapes (ctx : Ctx) (inv : invocation) (w : World) :
  let kw := build_kwargs (api_key ctx) (base_url ctx) in
  let out := invoke ctx inv w in
  out = ([EvErr usage_text], Exc (SystemExit 1))
  \/ (exists message, out = ([EvErr (error_text message)], Exc (SystemExit 1)))
  \/ (exists e, out = ([], Exc e))
  \/ (exists c r, out = ([EvNew kw; EvCall c; EvClose; EvPrint r], Ok tt))
  \/ (exists c message,
        out = ([EvNew kw; EvCall c; EvErr (error_text message); EvClose],
               Exc (SystemExit 1)))
  \/ (exists c e, out = ([EvNew kw; EvCall c; EvClose], Exc e)).
Proof.
  cbv zeta.
  destruct (invoke_session ctx inv w) as [-> | [c Hrun]]; [now left |].
  right.
  inversion Hrun as [m Hnew He Heq | m n Hnew He Heq | e Hnew Hne Heq
                     | r Hnew Hcall Hp Heq | r n Hnew Hcall Hp Heq
                     | m Hnew Hcall He Heq | m n Hnew Hcall He Heq
                     | e Hnew Hcall Hne Heq].
  - left. now exists m.
  - right. left. now eexists.
  - right. left. now exists e.
  - do 2 right. left. now exists c, r.
  - do 4 right. now exists c, (OtherError n).
  - do 3 right. left. now exists c, m.
  - do 4 right. now exists c, (OtherError n).
  - do 4 right. now exists c, e.
Qed.

Ltac shapes ctx inv w :=
  let H := fresh "Hshape" in
  pose proof (invoke_shapes ctx inv w) as H; cbv zeta in H;
  destruct H as [H | [[? H] | [[? H] | [(? & ? & H) | [(? & ? & H) | (? & ? & H)]]]]];
  rewrite H in *; clear H; simpl in *.

(** ** What a run prints, and in which order *)

(** X8: A command prints on the console only when it succeeds, and then one
    thing, after the client is closed: a run that returns normally is the
    creation of the client, the remote call, [close] and one print; a run
    that ends in an exception has printed nothing on the console. *)
Theorem console_output_only_on_success (ctx : Ctx) (inv : invocation)
    (w : World) :
  let tr := (invoke ctx inv w).1 in
  let r := (invoke ctx inv w).2 in
  (r = Ok tt ->
   exists c p,
     tr = [EvNew (build_kwargs (api_key ctx) (base_url ctx)); EvCall c; EvClose;
           EvPrint p])
  /\ (r <> Ok tt -> List.filter is_print tr = []).
Proof.
  cbv zeta. shapes ctx inv w; split; intros Hr;
    try discriminate Hr; try reflexivity; try (now destruct Hr); eauto.
Qed.

Lemma console_output_only_on_success_witness :
  List.filter is_print
    (invoke no_credentials InvList (failing_world (Py.lit "down"))).1 = [].
Proof.
  apply (proj2 (console_output_only_on_success no_credentials InvList
                  (failing_world (Py.lit "down")))).
  discriminate.
Defined.

(** X9: Every message on the error console starts with the [Error:] label,
    and a run writes at most one. *)
Theorem error_messages_are_labelled (ctx : Ctx) (inv : invocation) (w : World)
    (msg : list N) :
  In (EvErr msg) (invoke ctx inv w).1 ->
  (exists text, msg = Py.lit "[red]Error:[/red] " ++ text)
  /\ List.filter is_err (invoke ctx inv w).1 = [EvErr msg].
Proof.
  shapes ctx inv w; intros Hin;
    repeat (destruct Hin as [Hin | Hin]; try discriminate Hin);
    try contradiction; injection Hin as <-; split; try reflexivity.
  - now exists (Py.lit "--output requires --format (-f).").
  - eexists. reflexivity.
  - eexists. reflexivity.
Qed.

Lemma error_messages_are_labelled_witness :
  List.filter is_err
    (invoke no_credentials
       (InvExecute (Py.lit "Sales") None None None (Some (Py.lit "out.csv")))
       calm_world).1
  = [EvErr usage_text].
Proof.
  apply (proj2 (error_messages_are_labelled no_credentials
                  (InvExecute (Py.lit "Sales") None None None
                     (Some (Py.lit "out.csv")))
                  calm_world usage_text (or_introl eq_refl))).
Defined.

(** X10: A run makes at most one remote call, on a client built from the
    truthy credentials of the context, and closes that client after the
    call: the trace starts with the creation and the call, [close] follows
    and no other call does. *)
Theorem one_call_between_new_and_close (ctx : Ctx) (inv : invocation)
    (w : World) (c : remote_call) :
  In (EvCall c) (invoke ctx inv w).1 ->
  exists post,
    (invoke ctx inv w).1
    = EvNew (build_kwargs (api_key ctx) (base_url ctx)) :: EvCall c :: post
    /\ In EvClose post
    /\ forall c', ~ In (EvCall c') post.
Proof.
  shapes ctx inv w; intros Hin;
    repeat (destruct Hin as [Hin | Hin]; try discriminate Hin);
    try contradiction; injection Hin as <-;
    eexists; (split; [reflexivity |]); simpl;
    (split; [tauto |]); intros c' Hc';
    repeat (destruct Hc' as [Hc' | Hc']; try discriminate Hc');
    contradiction.
Qed.

Lemma one_call_between_new_and_close_witness :
  exists post,
    (invoke no_credentials InvList calm_world).1
    = EvNew ∅ :: EvCall CallList :: post
    /\ In EvClose post
    /\ forall c', ~ In (EvCall c') post.
Proof.
  apply (one_call_between_new_and_close no_credentials InvList calm_world
           CallList).
  right. left. reflexivity.
Defined.

(** X11: When the constructor and the methods of the client fail with the
    SDK's error only, a command ends in one of three ways: it returns,
    exit status 0, with nothing on the error console; it exits through
    [sys.exit(1)] and has written exactly one message there; or a print
    raised, and the process exits with status 1 with nothing on either
    console. *)
Theorem exit_status_and_error_console (ctx : Ctx) (inv : invocation)
    (w : World) :
  (forall e,
     w_construct w (build_kwargs (api_key ctx) (base_url ctx)) = Exc e ->
     exists message, e = SynalinksError message) ->
  (forall c e, call_raises w c = Some e -> exists message, e = SynalinksError message) ->
  let tr := (invoke ctx inv w).1 in
  let r := (invoke ctx inv w).2 in
  (r = Ok tt /\ exit_status r = 0 /\ List.filter is_err tr = [])
  \/ (r = Exc (SystemExit 1) /\ exit_status r = 1
      /\ exists msg, List.filter is_err tr = [EvErr msg])
  \/ (exists name,
        r = Exc (OtherError name) /\ exit_status r = 1
        /\ List.filter is_err tr = [] /\ List.filter is_print tr = []).
Proof.
  intros Hnew Hcalls. cbv zeta.
  pose proof (invoke_call_of ctx inv w) as Hrun.
  destruct (call_of inv) as [c |].
  - apply session_inv in Hrun.
    destruct (w_construct w (build_kwargs (api_key ctx) (base_url ctx)))
      as [[] | e] eqn:Hc.
    + destruct (call_raises w c) as [e |] eqn:Hr.
      * destruct (Hcalls c e Hr) as [m ->]. rewrite Hrun.
        destruct (w_err_print w (error_text m)) as [name |]; simpl.
        -- do 2 right. exists name. auto.
        -- right. left. eauto.
      * destruct Hrun as [r ->].
        destruct (w_print w r) as [name |]; simpl.
        -- do 2 right. exists name. auto.
        -- left. auto.
    + destruct (Hnew e eq_refl) as [m ->]. rewrite Hrun.
      destruct (w_err_print w (error_text m)) as [name |]; simpl.
      * do 2 right. exists name. auto.
      * right. left. eauto.
  - rewrite Hrun. right. left. simpl. eauto.
Qed.

Lemma exit_status_and_error_console_witness :
  exit_status
    (invoke no_credentials InvList (failing_world (Py.lit "down"))).2 = 1.
Proof.
  destruct (exit_status_and_error_console no_credentials InvList
              (failing_world (Py.lit "down")))
    as [(H & _) | [(_ & H & _) | (name & _ & H & _)]].
  - intros e He. discriminate He.
  - intros c e He. destruct c; injection He as <-; eexists; reflexivity.
  - discriminate H.
  - exact H.
  - exact H.
Defined.

(** ** The client's credentials *)

(** X12: The constructor of the client is given a credential only when it is
    truthy: the keyword arguments hold [api_key] and [base_url] when they
    are non-empty strings and nothing else, so that an empty string counts
    as no credential at all. *)
Theorem kwargs_hold_truthy_credentials (api base : option (list N))
    (key : list N) :
  build_kwargs api base !! key
  = (if decide (key = Py.lit "base_url")
     then (if Py.truthy_opt base then base else None)
     else if decide (key = Py.lit "api_key")
          then (if Py.truthy_opt api then api else None)
          else None)
  /\ build_kwargs (Some []) base = build_kwargs None base
  /\ build_kwargs api (Some []) = build_kwargs api None.
Proof.
  split; [| split; reflexivity].
  unfold build_kwargs.
  destruct base as [[| b base] |], api as [[| a api] |]; simpl;
    repeat case_decide; subst;
    rewrite ?lookup_insert_eq, ?lookup_insert_ne, ?lookup_empty by congruence;
    try reflexivity; try discriminate.
Qed.

(** ** Outputs of the commands *)

Lemma none_found_prints (w : World) : w_print w (Markup none_found_text) = None.
Proof. exact (proj2 (w_literals w)). Qed.

(** X13: When the service has no predicate at all, [list] prints the
    message [No predicates found.]; otherwise it hands the console one
    table whose lines are the tables, then the concepts, then the rules,
    each labelled with its kind in the first cell and named in the second,
    and the run ends with that table printed when rich prints it. *)
Theorem list_predicates_output (ctx : Ctx) (w : World) (preds : PredicateList) :
  w_construct w (build_kwargs (api_key ctx) (base_url ctx)) = Ok tt ->
  w_list w = Ok preds ->
  let before :=
    [EvNew (build_kwargs (api_key ctx) (base_url ctx)); EvCall CallList; EvClose] in
  (tables preds ++ concepts preds ++ rules preds = [] ->
   invoke ctx InvList w
   = (before ++ [EvPrint (Markup (Py.lit "[dim]No predicates found.[/dim]"))],
      Ok tt))
  /\ (tables preds ++ concepts preds ++ rules preds <> [] ->
      exists t,
        List.map (fun line => line !! 0%nat) (table_rows t)
        = List.map (fun _ => Some (CellStr (Py.lit "table"))) (tables preds)
          ++ List.map (fun _ => Some (CellStr (Py.lit "concept")))
               (concepts preds)
          ++ List.map (fun _ => Some (CellStr (Py.lit "rule"))) (rules preds)
        /\ List.map (fun line => line !! 1%nat) (table_rows t)
           = List.map (fun q => Some (CellStr (pred_name q)))
               (tables preds ++ concepts preds ++ rules preds)
        /\ (w_print w (RTable t) = None ->
            invoke ctx InvList w = (before ++ [EvPrint (RTable t)], Ok tt))
        /\ (forall name, w_print w (RTable t) = Some name ->
            invoke ctx InvList w = (before, Exc (OtherError name)))).
Proof.
  intros Hnew Hlist. cbv zeta. simpl invoke. unfold list_predicates, client_list.
  rewrite session_run. cbv zeta. rewrite Hnew, Hlist. simpl table_rows.
  destruct (List.map (predicate_row "table") (tables preds)
            ++ List.map (predicate_row "concept") (concepts preds)
            ++ List.map (predicate_row "rule") (rules preds))
    as [| line lines] eqn:Hlines.
  - split.
    + intros _. cbn [table_rows]. cbv beta iota. unfold console_print.
      change (Py.lit "[dim]No predicates found.[/dim]") with none_found_text.
      now rewrite none_found_prints.
    + intros Hsome. exfalso. apply Hsome.
      apply (f_equal (@length _)) in Hlines.
      rewrite !length_app, !length_map in Hlines. simpl in Hlines.
      destruct (tables preds), (concepts preds), (rules preds);
        simpl in Hlines; try lia. reflexivity.
  - split.
    + intros Hnone. apply (f_equal (@length _)) in Hlines.
      apply (f_equal (@length _)) in Hnone.
      rewrite !length_app, !length_map in Hlines.
      rewrite !length_app in Hnone. simpl in Hlines, Hnone. lia.
    + intros _.
      exists (mkTable (Py.lit "Predicates") None
                [ mkTableColumn (Py.lit "Type") (Py.lit "bold cyan") true false;
                  mkTableColumn (Py.lit "Name") (Py.lit "bold") false false;
                  mkTableColumn (Py.lit "Description") [] false false ]
                (line :: lines)).
      cbn [table_rows]. cbv beta iota. unfold console_print.
      split; [| split].
      * rewrite <- Hlines, !List.map_app, !List.map_map. reflexivity.
      * rewrite <- Hlines, !List.map_app, !List.map_map. reflexivity.
      * split; [intros -> | intros name ->]; reflexivity.
Qed.

Lemma list_predicates_output_witness :
  invoke no_credentials InvList calm_world
  = ([ EvNew ∅; EvCall CallList; EvClose;
       EvPrint (Markup (Py.lit "[dim]No predicates found.[/dim]")) ], Ok tt).
Proof.
  refine (proj1 (list_predicates_output no_credentials calm_world
                   (mkPredicateList [] [] []) _ _) _);
    reflexivity.
Defined.

(** X14: With a format, [execute] exports: the remote call gets the output
    path that was given, or [<predicate>.<format>] when none was, and the
    command hands the console the notice with that path and the number of
    bytes of the data; when rich prints the notice the command returns.
    No table is printed and no cell is formatted, so nothing is cut. *)
Theorem export_reports_saved_file (ctx : Ctx) (predicate : list N)
    (limit offset : option Z) (fmt : format) (output : option (list N))
    (w : World) (data : list N) :
  let path := default (predicate ++ Py.lit "." ++ format_str fmt) output in
  let before :=
    [ EvNew (build_kwargs (api_key ctx) (base_url ctx));
      EvCall (CallExport predicate fmt (default 20 limit) (default 0 offset) path);
      EvClose ] in
  let notice := SavedNotice path (Z.of_nat (length data)) in
  w_construct w (build_kwargs (api_key ctx) (base_url ctx)) = Ok tt ->
  w_export w predicate fmt (default 20 limit) (default 0 offset) path = Ok data ->
  (w_print w notice = None ->
   invoke ctx (InvExecute predicate limit offset (Some fmt) output) w
   = (before ++ [EvPrint notice], Ok tt))
  /\ (forall name, w_print w notice = Some name ->
      invoke ctx (InvExecute predicate limit offset (Some fmt) output) w
      = (before, Exc (OtherError name))).
Proof.
  cbv zeta. intros Hnew Hdata. simpl invoke. unfold execute, client_export.
  replace (Py.truthy_opt output && negb (format_truthy (Some fmt)))
    with false by (simpl; now rewrite andb_false_r).
  rewrite ret_then.
  destruct output as [path |].
  - change (w_export w predicate fmt (default limit_default limit)
              (default offset_default offset) path = Ok data) in Hdata.
    rewrite session_run. cbv zeta. rewrite Hnew, Hdata. cbv beta.
    unfold console_print, Py.len.
    split; [intros Hp | intros name Hp];
      change (default (predicate ++ Py.lit "." ++ format_str fmt) (Some path))
        with path in Hp;
      rewrite Hp; reflexivity.
  - change (w_export w predicate fmt (default limit_default limit)
              (default offset_default offset) (default_output predicate fmt)
            = Ok data) in Hdata.
    rewrite session_run. cbv zeta. rewrite Hnew, Hdata. cbv beta.
    unfold console_print, Py.len.
    split; [intros Hp | intros name Hp];
      change (default (predicate ++ Py.lit "." ++ format_str fmt) None)
        with (default_output predicate fmt) in Hp;
      rewrite Hp; reflexivity.
Qed.

Lemma export_reports_saved_file_witness :
  invoke no_credentials
    (InvExecute (Py.lit "Sales") None None (Some json) (Some (Py.lit "out.json")))
    sample_world
  = ([ EvNew ∅;
       EvCall (CallExport (Py.lit "Sales") json 20 0 (Py.lit "out.json"));
       EvClose; EvPrint (SavedNotice (Py.lit "out.json") 3) ],
     Ok tt).
Proof.
  refine (proj1 (export_reports_saved_file no_credentials (Py.lit "Sales") None
                   None json (Some (Py.lit "out.json")) sample_world
                   [1; 2; 3]%N _ _) _);
    reflexivity.
Defined.

(** X15: When the result has rows, [execute] hands the console, after
    closing the client, one table: its title is the predicate, its
    caption gives the counts and the offset of the result, its headers
    are the column names and each line is the formatted row.  The command
    returns when rich prints the table; when the print raises, nothing is
    printed and the exception leaves the command. *)
Theorem execute_prints_table (ctx : Ctx) (predicate : list N)
    (limit skip : option Z) (output : option (list N)) (w : World)
    (result : Result) :
  Py.truthy_opt output = false ->
  w_construct w (build_kwargs (api_key ctx) (base_url ctx)) = Ok tt ->
  w_execute w predicate (default 20 limit) (default 0 skip) = Ok result ->
  rows result <> [] ->
  let before :=
    [ EvNew (build_kwargs (api_key ctx) (base_url ctx));
      EvCall (CallExecute predicate (default 20 limit) (default 0 skip));
      EvClose ] in
  exists t,
    title t = predicate
    /\ caption t
       = Some (Py.lit "Showing " ++ Py.str_of_int (row_count result)
               ++ Py.lit " of " ++ Py.str_of_int (total_rows result)
               ++ Py.lit " rows (offset " ++ Py.str_of_int (offset result)
               ++ Py.lit ")")
    /\ List.map header (table_columns t) = List.map col_name (columns result)
    /\ table_rows t
       = List.map (fun row => List.map CellText (format_row (columns result) row))
           (rows result)
    /\ (w_print w (RTable t) = None ->
        invoke ctx (InvExecute predicate limit skip None output) w
        = (before ++ [EvPrint (RTable t)], Ok tt))
    /\ (forall name, w_print w (RTable t) = Some name ->
        invoke ctx (InvExecute predicate limit skip None output) w
        = (before, Exc (OtherError name))).
Proof.
  intros Hout Hnew Hcall Hrows. cbv zeta. simpl invoke.
  unfold execute, client_execute. rewrite Hout. cbn [andb].
  rewrite ret_then, session_run. cbv zeta.
  change (w_execute w predicate (default limit_default limit)
            (default offset_default skip) = Ok result) in Hcall.
  rewrite Hnew, Hcall.
  exists (result_table predicate (execute_caption result) result).
  split; [reflexivity |]. split; [reflexivity |].
  split; [unfold result_table; simpl; now rewrite List.map_map |].
  split; [reflexivity |].
  destruct (rows result) as [| row more] eqn:Hr; [congruence |].
  unfold console_print.
  split; [intros Hp | intros name Hp]; rewrite Hp; reflexivity.
Qed.

Lemma execute_prints_table_witness :
  exists t,
    invoke no_credentials (InvExecute (Py.lit "Sales") None None None None)
      sample_world
    = ([ EvNew ∅; EvCall (CallExecute (Py.lit "Sales") 20 0); EvClose;
         EvPrint (RTable t) ], Ok tt)
    /\ caption t = Some (Py.lit "Showing 2 of 10 rows (offset 0)").
Proof.
  destruct (execute_prints_table no_credentials (Py.lit "Sales") None None None
              sample_world sample_result eq_refl eq_refl eq_refl)
    as (t & _ & Hcaption & _ & _ & Hrun & _).
  - discriminate.
  - exists t. split; [exact (Hrun eq_refl) | exact Hcaption].
Defined.

(** X16: When the result has rows, [search] hands the console, after
    closing the client, one table: its title names the keywords, in
    double quotes, and the predicate; its caption gives the counts of the
    result; headers and lines are as for [execute].  The command returns
    when rich prints the table; when the print raises, nothing is printed
    and the exception leaves the command. *)
Theorem search_prints_table (ctx : Ctx) (predicate keywords : list N)
    (limit skip : option Z) (w : World) (result : Result) :
  w_construct w (build_kwargs (api_key ctx) (base_url ctx)) = Ok tt ->
  w_search w predicate keywords (default 20 limit) (default 0 skip)
  = Ok result ->
  rows result <> [] ->
  let before :=
    [ EvNew (build_kwargs (api_key ctx) (base_url ctx));
      EvCall (CallSearch predicate keywords (default 20 limit) (default 0 skip));
      EvClose ] in
  exists t,
    title t
    = Py.lit "Search " ++ Py.dquote ++ keywords ++ Py.dquote
      ++ Py.lit " in " ++ predicate
    /\ caption t
       = Some (Py.lit "Showing " ++ Py.str_of_int (row_count result)
               ++ Py.lit " of " ++ Py.str_of_int (total_rows result)
               ++ Py.lit " rows")
    /\ List.map header (table_columns t) = List.map col_name (columns result)
    /\ table_rows t
       = List.map (fun row => List.map CellText (format_row (columns result) row))
           (rows result)
    /\ (w_print w (RTable t) = None ->
        invoke ctx (InvSearch predicate keywords limit skip) w
        = (before ++ [EvPrint (RTable t)], Ok tt))
    /\ (forall name, w_print w (RTable t) = Some name ->
        invoke ctx (InvSearch predicate keywords limit skip) w
        = (before, Exc (OtherError name))).
Proof.
  intros Hnew Hcall Hrows. cbv zeta. simpl invoke.
  unfold search, client_search. rewrite session_run. cbv zeta.
  change (w_search w predicate keywords (default limit_default limit)
            (default offset_default skip) = Ok result) in Hcall.
  rewrite Hnew, Hcall.
  exists (result_table (search_title keywords predicate) (search_caption result)
            result).
  split; [reflexivity |]. split; [reflexivity |].
  split; [unfold result_table; simpl; now rewrite List.map_map |].
  split; [reflexivity |].
  destruct (rows result) as [| row more] eqn:Hr; [congruence |].
  unfold console_print.
  split; [intros Hp | intros name Hp]; rewrite Hp; reflexivity.
Qed.

Lemma search_prints_table_witness :
  exists t,
    invoke no_credentials
      (InvSearch (Py.lit "Sales") (Py.lit "Ada") None None) sample_world
    = ([ EvNew ∅; EvCall (CallSearch (Py.lit "Sales") (Py.lit "Ada") 20 0);
         EvClose; EvPrint (RTable t) ], Ok tt)
    /\ caption t = Some (Py.lit "Showing 2 of 10 rows").
Proof.
  destruct (search_prints_table no_credentials (Py.lit "Sales") (Py.lit "Ada")
              None None sample_world sample_result eq_refl eq_refl)
    as (t & _ & Hcaption & _ & _ & Hrun & _).
  - discriminate.
  - exists t. split; [exact (Hrun eq_refl) | exact Hcaption].
Defined.

(** X17: [add] hands the file, the name, the description and the
    overwrite flag to the remote call as they were given, a name that was
    not given staying [None]; on success it hands the console a table of
    one line: the predicate, the column names joined by a comma and a
    space, or a dash when the table has no column, and the row count.
    The command returns when rich prints the table; when the print
    raises, nothing is printed and the exception leaves the command. *)
Theorem upload_summary (ctx : Ctx) (file : list N)
    (name description : option (list N)) (overwrite : bool) (w : World)
    (result : UploadResult) :
  w_construct w (build_kwargs (api_key ctx) (base_url ctx)) = Ok tt ->
  w_upload w file name description overwrite = Ok result ->
  let before :=
    [ EvNew (build_kwargs (api_key ctx) (base_url ctx));
      EvCall (CallUpload file name description overwrite);
      EvClose ] in
  exists t,
    List.map header (table_columns t)
    = [Py.lit "Predicate"; Py.lit "Columns"; Py.lit "Rows"]
    /\ table_rows t
       = [ [ CellStr (up_predicate result);
             CellStr (if bool_decide (up_columns result = [])
                      then Py.lit "-"
                      else Py.join (Py.lit ", ")
                             (List.map col_name (up_columns result)));
             CellStr (Py.str_of_int (up_row_count result)) ] ]
    /\ (w_print w (RTable t) = None ->
        invoke ctx (InvAdd file name description overwrite) w
        = (before ++ [EvPrint (RTable t)], Ok tt))
    /\ (forall exception, w_print w (RTable t) = Some exception ->
        invoke ctx (InvAdd file name description overwrite) w
        = (before, Exc (OtherError exception))).
Proof.
  intros Hnew Hcall. cbv zeta. simpl invoke. unfold upload, client_upload.
  rewrite session_run. cbv zeta. rewrite Hnew, Hcall. cbv beta.
  exists (mkTable (Py.lit "Upload Result") None
            [ mkTableColumn (Py.lit "Predicate") (Py.lit "bold cyan") false false;
              mkTableColumn (Py.lit "Columns") (Py.lit "bold") false false;
              mkTableColumn (Py.lit "Rows") [] false true ]
            [ [ CellStr (up_predicate result);
                CellStr (match up_columns result with
                         | [] => Py.lit "-"
                         | cols => Py.join (Py.lit ", ") (List.map col_name cols)
                         end);
                CellStr (Py.str_of_int (up_row_count result)) ] ]).
  split; [reflexivity |]. split.
  - simpl table_rows. destruct (up_columns result) as [| col cols]; reflexivity.
  - unfold console_print.
    split; [intros Hp | intros exception Hp]; rewrite Hp; reflexivity.
Qed.

Lemma upload_summary_witness :
  exists t,
    invoke no_credentials (InvAdd (Py.lit "sales.csv") None None false)
      sample_world
    = ([ EvNew ∅; EvCall (CallUpload (Py.lit "sales.csv") None None false);
         EvClose; EvPrint (RTable t) ], Ok tt)
    /\ table_rows t
       = [ [ CellStr (Py.lit "Sales"); CellStr (Py.lit "name, city");
             CellStr (Py.lit "2") ] ].
Proof.
  destruct (upload_summary no_credentials (Py.lit "sales.csv") None None false
              sample_world (mkUploadResult (Py.lit "Sales") sample_columns 2)
              eq_refl eq_refl) as (t & _ & Hrows & Hrun & _).
  exists t. split; [exact (Hrun eq_refl) | exact Hrows].
Defined.

(** ** Questions and the router *)

Lemma join_app (sep : list N) (l1 l2 : list (list N)) :
  l1 <> [] -> l2 <> [] ->
  Py.join sep (l1 ++ l2) = Py.join sep l1 ++ sep ++ Py.join sep l2.
Proof.
  intros H1 H2. induction l1 as [| p l1 IH]; [congruence |].
  destruct l1 as [| q l1].
  - destruct l2 as [| r l2]; [congruence | reflexivity].
  - change (p ++ sep ++ Py.join sep ((q :: l1) ++ l2)
            = (p ++ sep ++ Py.join sep (q :: l1)) ++ sep ++ Py.join sep l2).
    rewrite IH by discriminate. now rewrite <- !app_assoc.
Qed.

(** X18: How the words of a question are grouped into tokens does not matter:
    a question typed as several tokens, as two quoted parts, or as one
    quoted token, gives the same run of the ask command. *)
Theorem question_grouping_is_irrelevant (ctx : Ctx) (l1 l2 : list (list N))
    (w : World) :
  l1 <> [] -> l2 <> [] ->
  invoke ctx (InvAsk (l1 ++ l2)) w
  = invoke ctx (InvAsk [Py.join (Py.lit " ") l1; Py.join (Py.lit " ") l2]) w
  /\ invoke ctx (InvAsk (l1 ++ l2)) w
     = invoke ctx (InvAsk [Py.join (Py.lit " ") (l1 ++ l2)]) w.
Proof.
  intros H1 H2. simpl invoke. unfold _ask_cmd.
  rewrite (join_app (Py.lit " ") l1 l2 H1 H2). split; reflexivity.
Qed.

Lemma question_grouping_is_irrelevant_witness :
  invoke no_credentials (InvAsk [Py.lit "How"; Py.lit "are"; Py.lit "sales"])
    calm_world
  = invoke no_credentials (InvAsk [Py.lit "How are sales"]) calm_world.
Proof.
  refine (eq_trans
            (proj2 (question_grouping_is_irrelevant no_credentials
                      [Py.lit "How"] [Py.lit "are"; Py.lit "sales"]
                      calm_world _ _)) _);
    [discriminate | discriminate | reflexivity].
Defined.

(** X19: A first token that is the name of a subcommand always selects that
    subcommand, which gets the tokens after it; a question that starts
    with one of those words is not asked. *)
Theorem known_subcommand_wins (rest : list (list N)) :
  route_of (Py.lit "list" :: rest) = RouteCommand CmdList rest
  /\ route_of (Py.lit "execute" :: rest) = RouteCommand CmdExecute rest
  /\ route_of (Py.lit "search" :: rest) = RouteCommand CmdSearch rest
  /\ route_of (Py.lit "add" :: rest) = RouteCommand CmdAdd rest.
Proof.
  unfold route_of.
  rewrite (resolve_command_known (Py.lit "list") CmdList rest eq_refl),
    (resolve_command_known (Py.lit "execute") CmdExecute rest eq_refl),
    (resolve_command_known (Py.lit "search") CmdSearch rest eq_refl),
    (resolve_command_known (Py.lit "add") CmdAdd rest eq_refl).
  repeat split.
Qed.

(** X20: A first token that is not empty always resolves to a command: to its
    own when it is a registered name, and then the command gets the
    tokens after it; to the hidden ask command otherwise, and then with
    all the tokens.  [No such command] is never the answer to a word. *)
Theorem nonempty_token_resolves (first : list N) (rest : list (list N)) :
  first <> [] ->
  match commands !! first with
  | Some cmd => resolve_command (first :: rest) = Resolved first cmd rest
  | None =>
      resolve_command (first :: rest)
      = Resolved (Py.lit "_ask") CmdAsk (first :: rest)
  end.
Proof.
  intros Hne. destruct (commands !! first) as [cmd |] eqn:Hcmd.
  - now apply resolve_command_known.
  - now apply resolve_command_unknown.
Qed.

Lemma nonempty_token_resolves_witness :
  resolve_command [Py.lit "lists"; Py.lit "please"]
  = Resolved (Py.lit "_ask") CmdAsk [Py.lit "lists"; Py.lit "please"].
Proof.
  apply (nonempty_token_resolves (Py.lit "lists") [Py.lit "please"]).
  discriminate.
Defined.

(** X21: [execute] stops at its usage error when it has no format and a
    non-empty output path, before any client exists and whatever the
    service would answer; with a client at hand it stops there in no
    other case. *)
Theorem usage_check_precedes_client (ctx : Ctx) (predicate : list N)
    (limit skip : option Z) (fmt : option format) (output : option (list N))
    (w : World) :
  let run := invoke ctx (InvExecute predicate limit skip fmt output) w in
  (fmt = None -> Py.truthy_opt output = true ->
   run = ([EvErr usage_text], Exc (SystemExit 1)))
  /\ (w_construct w (build_kwargs (api_key ctx) (base_url ctx)) = Ok tt ->
      run = ([EvErr usage_text], Exc (SystemExit 1)) ->
      fmt = None /\ Py.truthy_opt output = true).
Proof.
  cbv zeta. split.
  - intros -> Hout. simpl invoke. now apply execute_usage_run.
  - intros Hnew Hrun.
    pose proof (invoke_call_of ctx (InvExecute predicate limit skip fmt output) w)
      as Hcall.
    destruct (call_of (InvExecute predicate limit skip fmt output))
      as [c |] eqn:Hc.
    + apply session_inv in Hcall. rewrite Hnew in Hcall.
      destruct (call_raises w c) as [[code | m | n] |];
        [| destruct (w_err_print w (error_text m)) |
         | destruct Hcall as [r Hcall]; destruct (w_print w r)];
        rewrite Hcall in Hrun; discriminate Hrun.
    + simpl in Hc. destruct fmt; [discriminate Hc |].
      destruct (Py.truthy_opt output); [now split | discriminate Hc].
Qed.

Lemma usage_check_precedes_client_witness :
  invoke no_credentials
    (InvExecute (Py.lit "Sales") None None None (Some (Py.lit "out.csv")))
    (refusing_world (Py.lit "no key"))
  = ([EvErr usage_text], Exc (SystemExit 1)).
Proof.
  apply (proj1 (usage_check_precedes_client no_credentials (Py.lit "Sales")
                  None None None (Some (Py.lit "out.csv"))
                  (refusing_world (Py.lit "no key"))));
    reflexivity.
Defined.
